(** * conthabil: gazette scraping workflow and query API

    A shallow embedding of the Python sources

      - [src/conthabil/scraper.py]     (module [Scraper])
      - [src/conthabil/uploader.py]    (module [Uploader])
      - [src/conthabil/api_client.py]  (module [ApiClient])
      - [src/conthabil/main_runner.py] (module [MainRunner])
      - [src/conthabil/crud.py]        (module [Crud])
      - [main.py]                      (module [Main])

    together with the few pieces of the Python standard library, dateutil
    and httpx these functions rely on (module [Py]).  Python strings are
    modelled as ASCII strings, Python integers as [Z], exceptions as values
    of the type [exn] threaded through a small error monad. *)

From Stdlib Require Import ZArith List String Ascii Bool Lia.
Import ListNotations.

Local Open Scope Z_scope.

(** ** Python runtime: exceptions, strings, dates *)

Module Py.

(** The exception classes that occur in the modelled code.  [RequestError]
    and [HTTPStatusError] are the two disjoint subclasses of
    [httpx.HTTPError]; [IOError] is Python's alias of [OSError]. *)
Inductive exn : Type :=
| RequestError
| HTTPStatusError (status_code : Z)
| OSError
| ValueError
| WebDriverException
| DataError.

Definition result (A : Type) : Type := (exn + A)%type.

Definition ret {A} (a : A) : result A := inr a.
Definition raise {A} (e : exn) : result A := inl e.
Definition bind {A B} (m : result A) (k : A -> result B) : result B :=
  match m with
  | inl e => inl e
  | inr a => k a
  end.

(** [list(map(f, xs))] for an [f] that may raise: the results are collected
    in the order of [xs], and the first exception met in that order
    propagates.  [ThreadPoolExecutor.map] yields its results in the order of
    the submitted items and re-raises a worker's exception when its result
    is reached, so [list(executor.map(f, xs))] has the same outcome. *)
Fixpoint map_list {A B} (f : A -> result B) (xs : list A) : result (list B) :=
  match xs with
  | [] => ret []
  | x :: xs' =>
      bind (f x) (fun y => bind (map_list f xs') (fun ys => ret (y :: ys)))
  end.

(** [[v for v in results if v is not None]] *)
Fixpoint not_none {A} (results : list (option A)) : list A :=
  match results with
  | [] => []
  | Some v :: rest => v :: not_none rest
  | None :: rest => not_none rest
  end.

(** *** Strings *)

Definition is_digit (c : ascii) : bool :=
  (48 <=? Z.of_N (N_of_ascii c)) && (Z.of_N (N_of_ascii c) <=? 57).

Definition digit_value (c : ascii) : Z := Z.of_N (N_of_ascii c) - 48.

Definition digit_char (d : Z) : ascii := ascii_of_N (Z.to_N (48 + d)).

(** [str.isspace] on the ASCII range: tab, line feed, vertical tab, form
    feed, carriage return, the separators 28..31 and the space. *)
Definition is_space (c : ascii) : bool :=
  let n := Z.of_N (N_of_ascii c) in
  ((9 <=? n) && (n <=? 13)) || ((28 <=? n) && (n <=? 32)).

Fixpoint lstrip (s : string) : string :=
  match s with
  | EmptyString => EmptyString
  | String c s' => if is_space c then lstrip s' else s
  end.

Fixpoint rstrip (s : string) : string :=
  match s with
  | EmptyString => EmptyString
  | String c s' =>
      match rstrip s' with
      | EmptyString => if is_space c then EmptyString else String c EmptyString
      | t => String c t
      end
  end.

(** [s.strip()] *)
Definition strip (s : string) : string := rstrip (lstrip s).

(** [s.rfind(c)]: index of the last occurrence of [c], or [-1]. *)
Fixpoint rfind_from (c : ascii) (s : string) (i last : Z) : Z :=
  match s with
  | EmptyString => last
  | String a s' => rfind_from c s' (i + 1) (if Ascii.eqb a c then i else last)
  end.

Definition rfind (c : ascii) (s : string) : Z := rfind_from c s 0 (-1).

(** [s[i:]] for [0 <= i]. *)
Fixpoint drop (n : nat) (s : string) : string :=
  match n, s with
  | O, _ => s
  | S _, EmptyString => EmptyString
  | S n', String _ s' => drop n' s'
  end.

Definition slice_from (i : Z) (s : string) : string := drop (Z.to_nat i) s.

(** [posixpath.basename]: [i = p.rfind('/') + 1; return p[i:]]. *)
Definition basename (p : string) : string :=
  let i := rfind "/"%char p + 1 in
  slice_from i p.

Fixpoint ends_with_slash (a : string) : bool :=
  match a with
  | EmptyString => false
  | String c EmptyString => Ascii.eqb c "/"%char
  | String _ a' => ends_with_slash a'
  end.

(** [posixpath.join(a, b)] for two components. *)
Definition join (a b : string) : string :=
  match b with
  | String "/"%char _ => b
  | _ =>
      match a with
      | EmptyString => b
      | _ => if ends_with_slash a then (a ++ b)%string
             else (a ++ "/" ++ b)%string
      end
  end.

(** *** The regular expression [(\d{8})]

    [digits_prefix n s] is the match of [\d{n}] anchored at the start of
    [s]; [re_search_d8 s] is [re.search(r"(\d{8})", s)], which tries the
    start positions from left to right and answers with group 1 of the first
    match. *)
Fixpoint digits_prefix (n : nat) (s : string) : option string :=
  match n with
  | O => Some EmptyString
  | S n' =>
      match s with
      | EmptyString => None
      | String c s' =>
          if is_digit c then
            match digits_prefix n' s' with
            | Some t => Some (String c t)
            | None => None
            end
          else None
      end
  end.

Fixpoint re_search_d8 (s : string) : option string :=
  match digits_prefix 8 s with
  | Some token => Some token
  | None =>
      match s with
      | EmptyString => None
      | String _ s' => re_search_d8 s'
      end
  end.

(** *** [datetime] *)

Record datetime : Type := mk_datetime {
  year : Z;
  month : Z;
  day : Z;
  hour : Z;
  minute : Z;
  second : Z
}.

Definition MINYEAR : Z := 1.
Definition MAXYEAR : Z := 9999.

Definition is_leap (y : Z) : bool :=
  (y mod 4 =? 0) && (negb (y mod 100 =? 0) || (y mod 400 =? 0)).

(** [calendar.monthrange(y, m)[1]] for [1 <= m <= 12]. *)
Definition days_in_month (y m : Z) : Z :=
  if m =? 2 then (if is_leap y then 29 else 28)
  else if (m =? 4) || (m =? 6) || (m =? 9) || (m =? 11) then 30
  else 31.

(** The check made by the [date] constructor and by [replace]. *)
Definition valid_date (y m d : Z) : bool :=
  (MINYEAR <=? y) && (y <=? MAXYEAR) &&
  (1 <=? m) && (m <=? 12) &&
  (1 <=? d) && (d <=? days_in_month y m).

(** [datetime(y, m, d)]: midnight of that day, [ValueError] when the
    fields are out of range. *)
Definition make_date (y m d : Z) : result datetime :=
  if valid_date y m d then ret (mk_datetime y m d 0 0 0)
  else raise ValueError.

(** [dt.replace(year=y, month=m, day=d)] *)
Definition replace_date (dt : datetime) (y m d : Z) : result datetime :=
  if valid_date y m d
  then ret (mk_datetime y m d (hour dt) (minute dt) (second dt))
  else raise ValueError.

Fixpoint digits_value (s : string) (acc : Z) : Z :=
  match s with
  | EmptyString => acc
  | String c s' => digits_value s' (10 * acc + digit_value c)
  end.

Fixpoint all_digits (s : string) : bool :=
  match s with
  | EmptyString => true
  | String c s' => is_digit c && all_digits s'
  end.

(** [datetime.strptime(date_str, "%Y%m%d")] on a string of eight decimal
    digits, the only strings the orchestrator passes to it.  The format
    compiles to [\d\d\d\d] for the year, [1[0-2]|0[1-9]|[1-9]] for the month
    and [3[0-1]|[1-2]\d|0[1-9]|[1-9]| [1-9]] for the day, and the whole
    string must be consumed: on eight digits this succeeds exactly when the
    month digits spell 01..12 and the day digits 01..31, after which the
    date constructor checks the year and the length of the month.  Every
    failure is a [ValueError].  On a string that is not eight digits this
    model answers [ValueError]. *)
Definition strptime_Ymd (date_str : string) : result datetime :=
  if (String.length date_str =? 8)%nat && all_digits date_str then
    let y := digits_value (substring 0 4 date_str) 0 in
    let m := digits_value (substring 4 2 date_str) 0 in
    let d := digits_value (substring 6 2 date_str) 0 in
    if (1 <=? m) && (m <=? 12) && (1 <=? d) && (d <=? 31)
    then make_date y m d
    else raise ValueError
  else raise ValueError.

(** [dt - relativedelta(months=1)], that is [relativedelta(months=-1)]
    added to [dt]: the month is decremented, wrapping into December of the
    previous year; the day is clipped to the length of the new month; the
    result is built with [dt.replace], which raises [ValueError] when the
    year leaves [MINYEAR..MAXYEAR]. *)
Definition minus_one_month (dt : datetime) : result datetime :=
  let y := year dt in
  let m := month dt + -1 in
  let '(y, m) :=
    if 12 <? m then (y + 1, m - 12)
    else if m <? 1 then (y - 1, m + 12)
    else (y, m) in
  let d := Z.min (days_in_month y m) (day dt) in
  replace_date dt y m d.

(** Zero-padded decimal renderings, two and four digits wide. *)
Definition two_digits (n : Z) : string :=
  String (digit_char (n / 10 mod 10))
    (String (digit_char (n mod 10)) EmptyString).

Definition four_digits (n : Z) : string :=
  String (digit_char (n / 1000 mod 10))
    (String (digit_char (n / 100 mod 10))
      (String (digit_char (n / 10 mod 10))
        (String (digit_char (n mod 10)) EmptyString))).

(** [dt.strftime("%m")]: the month as two decimal digits. *)
Definition strftime_m (dt : datetime) : string := two_digits (month dt).

(** [dt.strftime("%Y")]: the year with century, four decimal digits. *)
Definition strftime_Y (dt : datetime) : string := four_digits (year dt).

(** [httpx.Response.is_success] *)
Definition is_success (status_code : Z) : bool :=
  (200 <=? status_code) && (status_code <=? 299).

End Py.

Import Py.

(** ** The world outside the program

    Everything the workflow observes of its environment: the clock, the
    remote browser session, the gazette portal, the upload endpoint, the
    storage API and the local disk.  Each field answers one kind of call the
    code makes; the code's own control flow is modelled on top of it. *)

(** What an HTTP call made through httpx comes to: a response with a status
    code and a body, or an [httpx.RequestError] (no usable response: the
    connection failed, timed out or broke while the body was read). *)
Inductive http_reply : Type :=
| Reply (status_code : Z) (text : string)
| NoReply.

Record World : Type := {
  (** [setup_logging()]: [logging.basicConfig] opens [app.log] *)
  setup_logging : result unit;
  (** [os.makedirs(path, exist_ok=True)] *)
  os_makedirs : string -> result unit;
  (** [datetime.today()] *)
  today : datetime;
  (** [webdriver.Remote(...)]: the session is opened, or the call raises *)
  webdriver_remote : result unit;
  (** [driver.quit()] *)
  driver_quit : result unit;
  (** [driver.get(target_url)] *)
  driver_get : string -> result unit;
  (** selecting month [mes] and year [ano], submitting the form and waiting
      for a link that contains [/mes/ano] *)
  submit_search : string -> string -> result unit;
  (** the [href] attribute of each anchor of the results table, as read
      after the pagination attempt *)
  table_hrefs : result (list (option string));
  (** [httpx.stream("GET", link, follow_redirects=True)], body read included *)
  http_get : string -> http_reply;
  (** whether [open(save_path, "wb")] and the writes succeed *)
  can_write : string -> bool;
  (** whether [open(file_path, "rb")] and the reads succeed *)
  can_read : string -> bool;
  (** the multipart POST of a file to the upload endpoint *)
  http_post_file : string -> http_reply;
  (** the JSON POST of [{url, publication_date}] to [/gazettes/] *)
  http_post_gazette : string -> datetime -> http_reply
}.

(** An [httpx.Response]. *)
Record http_response : Type := {
  status_code : Z;
  text : string
}.

(** The httpx call itself: the response, or [httpx.RequestError]. *)
Definition request (r : http_reply) : result http_response :=
  match r with
  | Reply status_code text => ret {| status_code := status_code; text := text |}
  | NoReply => raise RequestError
  end.

(** [response.raise_for_status()] *)
Definition raise_for_status (response : http_response) : result unit :=
  if is_success (status_code response) then ret tt
  else raise (HTTPStatusError (status_code response)).

(** ** scraper.py *)

Module Scraper.

(** The first lines of [_perform_search]: the month and year strings that
    are selected in the form and expected in the result links. *)
Definition search_target (today : datetime) : result (string * string) :=
  bind (minus_one_month today) (fun previous_month_date =>
  let target_month := strftime_m previous_month_date in
  let target_year := strftime_Y previous_month_date in
  ret (target_month, target_year)).

Definition _perform_search (w : World) : result unit :=
  bind (search_target (today w)) (fun target =>
  submit_search w (fst target) (snd target)).

(** [_set_pagination] catches every exception of its body and returns
    nothing: it cannot fail and its effect on the page is part of
    [table_hrefs]. *)
Definition _set_pagination (w : World) : result unit := ret tt.

(** [[href for elem in link_elements if (href := elem.get_attribute("href"))]]:
    anchors without an [href], or with an empty one, are dropped. *)
Fixpoint truthy_hrefs (hrefs : list (option string)) : list string :=
  match hrefs with
  | [] => []
  | Some EmptyString :: rest => truthy_hrefs rest
  | Some href :: rest => href :: truthy_hrefs rest
  | None :: rest => truthy_hrefs rest
  end.

Definition _find_pdf_links (w : World) : result (list string) :=
  bind (table_hrefs w) (fun hrefs => ret (truthy_hrefs hrefs)).

(** [_download_file]: only [httpx.RequestError] is caught. *)
Definition _download_file (w : World) (download_path link : string)
  : result (option string) :=
  let filename := basename link in
  let save_path := join download_path filename in
  match
    bind (request (http_get w link)) (fun response =>
    bind (raise_for_status response) (fun _ =>
    if can_write w save_path then ret save_path else raise OSError))
  with
  | inr path => ret (Some path)
  | inl RequestError => ret None
  | inl e => raise e
  end.

Definition _download_all_files (w : World) (download_path : string)
  (links : list string) : result (list string) :=
  bind (map_list (_download_file w download_path) links) (fun results =>
  let downloaded_files := not_none results in
  ret downloaded_files).

Definition find_and_download_files (w : World) (download_path target_url : string)
  : result (list string) :=
  bind (driver_get w target_url) (fun _ =>
  bind (_perform_search w) (fun _ =>
  bind (_set_pagination w) (fun _ =>
  bind (_find_pdf_links w) (fun pdf_links =>
  _download_all_files w download_path pdf_links)))).

End Scraper.

(** ** uploader.py *)

Module Uploader.

(** [_upload_file]: [httpx.RequestError] and [IOError] are caught. *)
Definition _upload_file (w : World) (file_path : string) : result (option string) :=
  match
    if can_read w file_path
    then bind (request (http_post_file w file_path)) (fun response =>
         bind (raise_for_status response) (fun _ =>
         let url := strip (text response) in
         ret url))
    else raise OSError
  with
  | inr url => ret (Some url)
  | inl RequestError => ret None
  | inl OSError => ret None
  | inl e => raise e
  end.

Definition upload_files (w : World) (file_paths : list string) : result (list string) :=
  bind (map_list (_upload_file w) file_paths) (fun results =>
  let uploaded_urls := not_none results in
  ret uploaded_urls).

End Uploader.

(** ** api_client.py *)

Module ApiClient.

(** [store_gazette]: both [httpx.HTTPStatusError] and [httpx.RequestError],
    the only exceptions the POST and the status check give rise to, are
    caught and turned into [False]. *)
Definition store_gazette (w : World) (publication_date : datetime)
  (uploaded_url : string) : bool :=
  match
    bind (request (http_post_gazette w uploaded_url publication_date))
      (fun response => raise_for_status response)
  with
  | inr _ => true
  | inl _ => false
  end.

End ApiClient.

(** ** main_runner.py *)

Module MainRunner.

Record Settings : Type := {
  TARGET_URL : string;
  DOWNLOAD_PATH : string
}.

(** The calls the orchestrator makes on its three collaborators, in the
    order in which it makes them. *)
Inductive event : Type :=
| FindAndDownloadFiles (target_url : string)
| UploadFiles (file_paths : list string)
| StoreGazette (publication_date : datetime) (uploaded_url : string).

(** The orchestrator's monad: a log of the calls made so far, and a value
    or a raised exception. *)
Definition M (A : Type) : Type := list event -> list event * result A.

Definition mret {A} (a : A) : M A := fun t => (t, inr a).

Definition mbind {A B} (m : M A) (k : A -> M B) : M B :=
  fun t =>
    match m t with
    | (t', inl e) => (t', inl e)
    | (t', inr a) => k a t'
    end.

Definition lift {A} (r : result A) : M A := fun t => (t, r).

Definition call (ev : event) : M unit := fun t => (t ++ [ev], inr tt).

(** [try: m except Exception as e: ...]: the outcome of [m] as a value. *)
Definition try_ {A} (m : M A) : M (result A) :=
  fun t => let (t', r) := m t in (t', inr r).

(** [try: m except (ValueError, IndexError): pass] *)
Definition except_ValueError (m : M unit) : M unit :=
  fun t =>
    match m t with
    | (t', inl ValueError) => (t', inr tt)
    | other => other
    end.

Declare Scope workflow_scope.
Delimit Scope workflow_scope with workflow.
Notation "x <- m ;; k" := (mbind m (fun x => k))
  (at level 61, m at next level, right associativity) : workflow_scope.
Notation "m ;; k" := (mbind m (fun _ => k))
  (at level 61, right associativity) : workflow_scope.
Local Open Scope workflow_scope.

(** [for x in xs: body(x)] *)
Fixpoint for_each {A} (xs : list A) (body : A -> M unit) : M unit :=
  match xs with
  | [] => mret tt
  | x :: xs' => body x ;; for_each xs' body
  end.

(** [d[k] = v] on a dict kept as its list of items in insertion order: an
    existing key keeps its place and takes the new value, a new key goes to
    the end. *)
Fixpoint dict_set (d : list (string * string)) (k v : string)
  : list (string * string) :=
  match d with
  | [] => [(k, v)]
  | (k', v') :: d' =>
      if String.eqb k' k then (k', v) :: d'
      else (k', v') :: dict_set d' k v
  end.

(** [dict(pairs).items()] *)
Definition dict (pairs : list (string * string)) : list (string * string) :=
  fold_left (fun d kv => dict_set d (fst kv) (snd kv)) pairs [].

(** [zip(xs, ys)] stops at the end of the shorter list. *)
Definition zip (xs ys : list string) : list (string * string) := combine xs ys.

(** [with Scraper(...) as scraper: scraper.find_and_download_files(...)]:
    [__enter__] opens the driver session and may raise before the body runs;
    once it has succeeded, [__exit__] runs after the body, whether the body
    returned or raised, and calls [driver.quit()]: when that raises, its
    exception is the outcome, otherwise the outcome of the body is. *)
Definition scrape (w : World) (settings : Settings) : M (list string) :=
  lift (webdriver_remote w) ;;
  body <- try_ (call (FindAndDownloadFiles (TARGET_URL settings)) ;;
                lift (Scraper.find_and_download_files w (DOWNLOAD_PATH settings)
                        (TARGET_URL settings))) ;;
  lift (driver_quit w) ;;
  lift body.

Definition upload (w : World) (downloaded_paths : list string) : M (list string) :=
  call (UploadFiles downloaded_paths) ;;
  lift (Uploader.upload_files w downloaded_paths).

Definition store_gazette (w : World) (publication_date : datetime)
  (uploaded_url : string) : M bool :=
  call (StoreGazette publication_date uploaded_url) ;;
  mret (ApiClient.store_gazette w publication_date uploaded_url).

(** The date the orchestrator derives from a file name: group 1 of
    [re.search(r"(\d{8})", filename)] parsed with [%Y%m%d]; [ValueError]
    when there is no match or the digits are not a date. *)
Definition publication_date_of (filename : string) : result datetime :=
  match re_search_d8 filename with
  | None => raise ValueError
  | Some date_str => strptime_Ymd date_str
  end.

(** The body of the storage loop for one item of [upload_map]. *)
Definition store_item (w : World) (item : string * string) : M unit :=
  let (uploaded_url, file_path) := item in
  let filename := basename file_path in
  except_ValueError (
    publication_date <- lift (publication_date_of filename) ;;
    store_gazette w publication_date uploaded_url ;;
    mret tt).

Definition store_all (w : World) (upload_map : list (string * string)) : M unit :=
  for_each upload_map (store_item w).

Definition is_empty {A} (l : list A) : bool :=
  match l with [] => true | _ => false end.

(** [settings] is what [get_settings()] returned.  [setup_logging] and
    [os.makedirs] run outside every [try]: their exceptions leave the
    function.  ([ApiClient(...)] only builds an [httpx.Client], as every
    upload that succeeded before it has done.) *)
Definition run_full_workflow (w : World) (settings : Settings) : M unit :=
  lift (setup_logging w) ;;
  lift (os_makedirs w (DOWNLOAD_PATH settings)) ;;
  (* Step 1: Scrape files *)
  scraped <- try_ (scrape w settings) ;;
  match scraped with
  | inl _ => mret tt
  | inr downloaded_paths =>
      if is_empty downloaded_paths then mret tt else
      (* Step 2: Upload files *)
      uploaded <- try_ (upload w downloaded_paths) ;;
      match uploaded with
      | inl _ => mret tt
      | inr uploaded_urls =>
          if is_empty uploaded_urls then mret tt else
          (* Step 3: Store URLs via API *)
          let upload_map := dict (zip uploaded_urls downloaded_paths) in
          store_all w upload_map
      end
  end.

(** The calls made by a run that starts with an empty log. *)
Definition calls_of {A} (m : M A) : list event := fst (m []).

End MainRunner.

(** ** models.py, schemas.py, crud.py *)

Module Crud.

(** A row of the table [gazettes]. *)
Record Gazette : Type := {
  id : Z;
  url : string;
  publication_date : datetime
}.

(** The request body of [POST /gazettes/]. *)
Record GazetteCreate : Type := {
  create_url : string;
  create_publication_date : datetime
}.

(** The database as a session sees it: the rows of [gazettes] and the next
    value of the [id] sequence.  The list gives the rows in the order in
    which the database returns them to a query without [ORDER BY];
    PostgreSQL promises no such order, and the model takes that of a scan of
    a table whose rows are only ever inserted (the program never updates or
    deletes one): the order of insertion. *)
Record Session : Type := {
  gazettes : list Gazette;
  next_id : Z
}.

(** [db.query(Gazette).filter(Gazette.url == u).first()] *)
Definition first_by_url (db : Session) (u : string) : option Gazette :=
  find (fun g => String.eqb (url g) u) (gazettes db).

(** [db.add(g); db.commit(); db.refresh(g)]: the row gets its [id] from the
    sequence and is appended. *)
Definition add_commit_refresh (db : Session) (u : string) (d : datetime)
  : Gazette * Session :=
  let db_gazette := {| id := next_id db; url := u; publication_date := d |} in
  (db_gazette,
   {| gazettes := gazettes db ++ [db_gazette]; next_id := next_id db + 1 |}).

Definition create_gazette (db : Session) (gazette : GazetteCreate)
  : Gazette * Session :=
  match first_by_url db (create_url gazette) with
  | Some db_gazette => (db_gazette, db)
  | None =>
      add_commit_refresh db (create_url gazette) (create_publication_date gazette)
  end.

(** A Python [int] compared with an integer expression of the query, here
    [extract(...)], is bound as a PostgreSQL [INTEGER]: the statement fails
    with [DataError] (integer out of range) unless the value fits 32 bits. *)
Definition in_int4 (n : Z) : bool :=
  (-2147483648 <=? n) && (n <=? 2147483647).

(** A Python [int] given as offset or limit is bound as [INTEGER] or, from
    32 bits on, as [BIGINT]: the statement fails with [DataError] unless
    the value fits 64 bits. *)
Definition in_int8 (n : Z) : bool :=
  (-9223372036854775808 <=? n) && (n <=? 9223372036854775807).

(** [db.query(Gazette).offset(skip).limit(limit).all()]; the database
    rejects an offset or limit that is out of range or negative. *)
Definition get_gazettes (db : Session) (skip limit : Z) : result (list Gazette) :=
  if in_int8 skip && in_int8 limit then
    if (skip <? 0) || (limit <? 0) then raise DataError
    else ret (firstn (Z.to_nat limit) (skipn (Z.to_nat skip) (gazettes db)))
  else raise DataError.

Definition get_gazettes_by_month_year (db : Session) (month year : Z)
  : result (list Gazette) :=
  if in_int4 month && in_int4 year then
    ret (filter (fun g => Z.eqb (Py.year (publication_date g)) year)
           (filter (fun g => Z.eqb (Py.month (publication_date g)) month)
              (gazettes db)))
  else raise DataError.

End Crud.

(** ** main.py *)

Module Main.

Import Crud.

Inductive HTTPException : Type :=
| mk_HTTPException (status_code : Z) (detail : string).

(** Truthiness of an [Optional[int]]: [None] and [0] are false. *)
Definition truthy (o : option Z) : bool :=
  match o with
  | Some n => negb (n =? 0)
  | None => false
  end.

(** What the handler [read_gazettes] comes to: a list of rows, a raised
    [HTTPException], or an exception of the database layer. *)
Inductive outcome : Type :=
| Returned (rows : list Gazette)
| Raised (e : HTTPException)
| Failed (e : exn).

Definition of_result (r : result (list Gazette)) : outcome :=
  match r with
  | inr rows => Returned rows
  | inl e => Failed e
  end.

Definition both_required : string :=
  "Both month and year must be provided for filtering.".

Definition read_gazettes (db : Session) (month year : option Z) (skip limit : Z)
  : outcome :=
  let otherwise :=
    if (truthy month && negb (truthy year))
       || (negb (truthy month) && truthy year)
    then Raised (mk_HTTPException 400 both_required)
    else of_result (get_gazettes db skip limit) in
  match month, year with
  | Some m, Some y =>
      if truthy month && truthy year
      then of_result (get_gazettes_by_month_year db m y)
      else otherwise
  | _, _ => otherwise
  end.

(** The query string of [GET /gazettes/] after parsing; [skip] and [limit]
    default to 0 and 100. *)
Record Query : Type := {
  q_month : option Z;
  q_year : option Z;
  q_skip : option Z;
  q_limit : option Z
}.

Inductive body : Type :=
| Rows (rows : list Gazette)
| Detail (detail : string)
| ValidationErrors
| InternalServerError.

Record Response : Type := {
  status : Z;
  content : body
}.

Definition default (d : Z) (o : option Z) : Z :=
  match o with Some n => n | None => d end.

(** [month: Optional[int] = Query(None, ge=1, le=12)] *)
Definition month_is_valid (month : option Z) : bool :=
  match month with
  | Some m => (1 <=? m) && (m <=? 12)
  | None => true
  end.

(** The route [GET /gazettes/]: parameter validation (422), the handler,
    and the rendering of its outcome. *)
Definition get_gazettes_route (db : Session) (q : Query) : Response :=
  if month_is_valid (q_month q) then
    match read_gazettes db (q_month q) (q_year q)
            (default 0 (q_skip q)) (default 100 (q_limit q)) with
    | Returned rows => {| status := 200; content := Rows rows |}
    | Raised (mk_HTTPException status_code detail) =>
        {| status := status_code; content := Detail detail |}
    | Failed _ => {| status := 500; content := InternalServerError |}
    end
  else {| status := 422; content := ValidationErrors |}.

(** The records a response carries. *)
Definition records (r : Response) : list Gazette :=
  match content r with
  | Rows rows => rows
  | _ => []
  end.

End Main.

(** ** Vocabulary of the statements about file names *)

Module Filename.

(** [tok] is a run of eight decimal digits. *)
Definition eight_digits (tok : string) : Prop :=
  String.length tok = 8%nat /\ all_digits tok = true.

(** [tok] is a run of eight decimal digits that starts right after the
    prefix [pre] of [filename]. *)
Definition token_at (filename pre tok : string) : Prop :=
  eight_digits tok /\ exists post, filename = (pre ++ tok ++ post)%string.

(** [filename] contains eight consecutive decimal digits somewhere. *)
Definition has_token (filename : string) : Prop :=
  exists pre tok, token_at filename pre tok.

(** [tok] is the leftmost run of eight decimal digits of [filename]. *)
Definition first_token (filename tok : string) : Prop :=
  exists pre,
    token_at filename pre tok /\
    forall pre' tok', token_at filename pre' tok' ->
                      (String.length pre <= String.length pre')%nat.

(** [tok] is the date [y]-[m]-[d] written as YYYYMMDD. *)
Definition spells (tok : string) (y m d : Z) : Prop :=
  tok = (four_digits y ++ two_digits m ++ two_digits d)%string.

(** [filename] contains an 8-digit date token: a run of eight decimal
    digits that spells a date of the calendar. *)
Definition has_date_token (filename : string) : Prop :=
  exists pre tok y m d,
    token_at filename pre tok /\ spells tok y m d /\ valid_date y m d = true.

End Filename.

(** ** Observations on a run and sample worlds *)

Module Run.

Import MainRunner.

Definition is_upload_call (ev : event) : bool :=
  match ev with UploadFiles _ => true | _ => false end.

Definition is_store_call (ev : event) : bool :=
  match ev with StoreGazette _ _ => true | _ => false end.

(** The storage calls one item of [upload_map] gives rise to. *)
Definition stored_for (item : string * string) : list event :=
  match publication_date_of (basename (snd item)) with
  | inr publication_date => [StoreGazette publication_date (fst item)]
  | inl _ => []
  end.

Definition settings : Settings :=
  {| TARGET_URL := "https://portal.example/diario";
     DOWNLOAD_PATH := "/app/downloads" |}.

(** A world in which the browser works, the portal lists the given
    links, and every transfer succeeds; the upload endpoint answers with a
    URL made of the uploaded path. *)
Definition fair_weather (hrefs : list string) : World :=
  {| setup_logging := inr tt;
     os_makedirs := fun _ => inr tt;
     today := mk_datetime 2025 8 4 9 30 0;
     webdriver_remote := inr tt;
     driver_quit := inr tt;
     driver_get := fun _ => inr tt;
     submit_search := fun _ _ => inr tt;
     table_hrefs := inr (map Some hrefs);
     http_get := fun _ => Reply 200 "%PDF-1.4";
     can_write := fun _ => true;
     can_read := fun _ => true;
     http_post_file := fun file_path =>
       Reply 200 ("https://files.example" ++ file_path ++ " ");
     http_post_gazette := fun _ _ => Reply 200 "{}" |}.

Definition link_1 : string := "https://portal.example/pdf/diario_20250701.pdf".
Definition link_2 : string := "https://portal.example/pdf/diario_20250702.pdf".
Definition path_1 : string := "/app/downloads/diario_20250701.pdf".
Definition path_2 : string := "/app/downloads/diario_20250702.pdf".

Definition with_http_get (w : World) (get : string -> http_reply) : World :=
  {| setup_logging := setup_logging w;
     os_makedirs := os_makedirs w;
     today := today w;
     webdriver_remote := webdriver_remote w;
     driver_quit := driver_quit w;
     driver_get := driver_get w;
     submit_search := submit_search w;
     table_hrefs := table_hrefs w;
     http_get := get;
     can_write := can_write w;
     can_read := can_read w;
     http_post_file := http_post_file w;
     http_post_gazette := http_post_gazette w |}.

Definition with_http_post_file (w : World) (post : string -> http_reply) : World :=
  {| setup_logging := setup_logging w;
     os_makedirs := os_makedirs w;
     today := today w;
     webdriver_remote := webdriver_remote w;
     driver_quit := driver_quit w;
     driver_get := driver_get w;
     submit_search := submit_search w;
     table_hrefs := table_hrefs w;
     http_get := http_get w;
     can_write := can_write w;
     can_read := can_read w;
     http_post_file := post;
     http_post_gazette := http_post_gazette w |}.

Definition with_can_write (w : World) (ok : string -> bool) : World :=
  {| setup_logging := setup_logging w;
     os_makedirs := os_makedirs w;
     today := today w;
     webdriver_remote := webdriver_remote w;
     driver_quit := driver_quit w;
     driver_get := driver_get w;
     submit_search := submit_search w;
     table_hrefs := table_hrefs w;
     http_get := http_get w;
     can_write := ok;
     can_read := can_read w;
     http_post_file := http_post_file w;
     http_post_gazette := http_post_gazette w |}.

(** Two gazettes are downloaded; the upload of the first one meets a
    connection error, the upload of the second one succeeds. *)
Definition first_upload_refused : World :=
  with_http_post_file (fair_weather [link_1; link_2])
    (fun file_path =>
       if String.eqb file_path path_1 then NoReply
       else Reply 200 ("https://files.example" ++ file_path ++ " ")).

(** The upload endpoint answers 500 for the first file only. *)
Definition first_upload_status_500 : World :=
  with_http_post_file (fair_weather [link_1; link_2])
    (fun file_path =>
       if String.eqb file_path path_1 then Reply 500 "Internal Server Error"
       else Reply 200 ("https://files.example" ++ file_path ++ " ")).

(** The portal answers 404 for the first link only. *)
Definition first_download_status_404 : World :=
  with_http_get (fair_weather [link_1; link_2])
    (fun link =>
       if String.eqb link link_1 then Reply 404 "Not Found"
       else Reply 200 "%PDF-1.4").

(** The first file cannot be written to the download directory. *)
Definition first_download_unwritable : World :=
  with_can_write (fair_weather [link_1; link_2])
    (fun save_path => negb (String.eqb save_path path_1)).

(** The portal cannot be reached for the first link only. *)
Definition first_download_refused : World :=
  with_http_get (fair_weather [link_1; link_2])
    (fun link =>
       if String.eqb link link_1 then NoReply else Reply 200 "%PDF-1.4").

End Run.

(** ** Vocabulary of the statements about the table *)

Module Table.

Import Crud.

(** No two rows of [gazettes] have the same [url]. *)
Definition url_unique (db : Session) : Prop := NoDup (map url (gazettes db)).

(** Every stored [publication_date] is a date of the calendar, as every
    Python [datetime] is. *)
Definition dates_valid (db : Session) : Prop :=
  Forall (fun g => valid_date (year (publication_date g))
                     (month (publication_date g))
                     (day (publication_date g)) = true)
    (gazettes db).

Definition gazette_1 : Gazette :=
  {| id := 1; url := "https://files.example/1.pdf";
     publication_date := mk_datetime 2025 7 15 0 0 0 |}.

Definition gazette_2 : Gazette :=
  {| id := 2; url := "https://files.example/2.pdf";
     publication_date := mk_datetime 2025 8 1 0 0 0 |}.

Definition two_rows : Session :=
  {| gazettes := [gazette_1; gazette_2]; next_id := 3 |}.

End Table.

(** ** Vocabulary of the further statements *)

Module Notions.

Import MainRunner.

(** [s] contains the path separator. *)
Fixpoint has_slash (s : string) : bool :=
  match s with
  | EmptyString => false
  | String c s' => Ascii.eqb c "/"%char || has_slash s'
  end.

(** The URLs of the storage calls of a log, in the order of the calls. *)
Fixpoint stored_urls (calls : list event) : list string :=
  match calls with
  | [] => []
  | StoreGazette _ uploaded_url :: rest => uploaded_url :: stored_urls rest
  | _ :: rest => stored_urls rest
  end.

(** [(k, v)] is the last pair of [pairs] whose key is [k]. *)
Definition last_with_key (pairs : list (string * string)) (k v : string) : Prop :=
  exists before after,
    pairs = before ++ (k, v) :: after /\ ~ In k (map fst after).

(** [dt] is the first instant of its day. *)
Definition at_midnight (dt : datetime) : Prop :=
  hour dt = 0 /\ minute dt = 0 /\ second dt = 0.

(** The world [w] with another storage API behind [/gazettes/]. *)
Definition with_http_post_gazette (w : World)
  (post : string -> datetime -> http_reply) : World :=
  {| setup_logging := setup_logging w;
     os_makedirs := os_makedirs w;
     today := today w;
     webdriver_remote := webdriver_remote w;
     driver_quit := driver_quit w;
     driver_get := driver_get w;
     submit_search := submit_search w;
     table_hrefs := table_hrefs w;
     http_get := http_get w;
     can_write := can_write w;
     can_read := can_read w;
     http_post_file := http_post_file w;
     http_post_gazette := post |}.

End Notions.

(** * Properties *)

Import MainRunner Crud Main Filename Run Table.

(** ** Sample runs of the library models *)

Example basename_sample :
  basename "/app/downloads/diario_20250715.pdf" = "diario_20250715.pdf"%string.
Proof. reflexivity. Qed.

Example join_sample :
  join "/app/downloads" "a.pdf" = "/app/downloads/a.pdf"%string.
Proof. reflexivity. Qed.

Example re_search_sample :
  re_search_d8 "diario_20250715.pdf" = Some "20250715"%string.
Proof. reflexivity. Qed.

Example strptime_sample :
  strptime_Ymd "20250715" = inr (mk_datetime 2025 7 15 0 0 0).
Proof. reflexivity. Qed.

Example strptime_rejects_february_30 : strptime_Ymd "20250230" = inl ValueError.
Proof. reflexivity. Qed.

Example strip_sample : strip "  http://x/y.pdf " = "http://x/y.pdf"%string.
Proof. reflexivity. Qed.

Example dict_sample :
  dict [("u", "a"); ("v", "b"); ("u", "c")]%string = [("u", "c"); ("v", "b")]%string.
Proof. reflexivity. Qed.


(** ** Decimal digits *)

Lemma digit_char_spec (d : Z) :
  0 <= d <= 9 -> is_digit (digit_char d) = true /\ digit_value (digit_char d) = d.
Proof.
  intros H.
  assert (Hd : d = 0 \/ d = 1 \/ d = 2 \/ d = 3 \/ d = 4 \/ d = 5 \/ d = 6
               \/ d = 7 \/ d = 8 \/ d = 9) by lia.
  repeat (destruct Hd as [Hd | Hd]; [subst d; split; reflexivity |]).
  subst d; split; reflexivity.
Qed.

Lemma decimal_digit_range (n k : Z) : 0 < k -> 0 <= n -> 0 <= n / k mod 10 <= 9.
Proof.
  intros Hk Hn.
  pose proof (Z.mod_pos_bound (n / k) 10 ltac:(lia)). lia.
Qed.

Lemma four_digits_value (y : Z) :
  0 <= y <= 9999 ->
  10 * (10 * (10 * (10 * 0 + y / 1000 mod 10) + y / 100 mod 10) + y / 10 mod 10)
  + y mod 10 = y.
Proof.
  intros H.
  assert (H1 : y / 1000 mod 10 = y / 1000).
  { apply Z.mod_small; split;
      [apply Z.div_pos; lia | apply Z.div_lt_upper_bound; lia]. }
  rewrite H1. Z.to_euclidean_division_equations. lia.
Qed.

Lemma two_digits_value (n : Z) :
  0 <= n <= 99 -> 10 * (10 * 0 + n / 10 mod 10) + n mod 10 = n.
Proof.
  intros H.
  assert (H1 : n / 10 mod 10 = n / 10).
  { apply Z.mod_small; split;
      [apply Z.div_pos; lia | apply Z.div_lt_upper_bound; lia]. }
  rewrite H1. Z.to_euclidean_division_equations. lia.
Qed.

(** Parsing the YYYYMMDD spelling of a date gives the date back. *)
Lemma strptime_of_spelling (y m d : Z) :
  0 <= y <= 9999 -> 1 <= m <= 12 -> 1 <= d <= 31 ->
  strptime_Ymd (four_digits y ++ two_digits m ++ two_digits d) = make_date y m d.
Proof.
  intros Hy Hm Hd.
  unfold strptime_Ymd, four_digits, two_digits.
  cbn [String.append String.length Nat.eqb andb all_digits substring digits_value].
  destruct (digit_char_spec (y / 1000 mod 10)) as [A1 B1];
    [apply decimal_digit_range; lia |].
  destruct (digit_char_spec (y / 100 mod 10)) as [A2 B2];
    [apply decimal_digit_range; lia |].
  destruct (digit_char_spec (y / 10 mod 10)) as [A3 B3];
    [apply decimal_digit_range; lia |].
  destruct (digit_char_spec (y mod 10)) as [A4 B4];
    [pose proof (Z.mod_pos_bound y 10 ltac:(lia)); lia |].
  destruct (digit_char_spec (m / 10 mod 10)) as [A5 B5];
    [apply decimal_digit_range; lia |].
  destruct (digit_char_spec (m mod 10)) as [A6 B6];
    [pose proof (Z.mod_pos_bound m 10 ltac:(lia)); lia |].
  destruct (digit_char_spec (d / 10 mod 10)) as [A7 B7];
    [apply decimal_digit_range; lia |].
  destruct (digit_char_spec (d mod 10)) as [A8 B8];
    [pose proof (Z.mod_pos_bound d 10 ltac:(lia)); lia |].
  rewrite A1, A2, A3, A4, A5, A6, A7, A8, B1, B2, B3, B4, B5, B6, B7, B8.
  cbn [andb].
  rewrite (four_digits_value y Hy), (two_digits_value m), (two_digits_value d)
    by lia.
  replace ((1 <=? m) && (m <=? 12) && (1 <=? d) && (d <=? 31)) with true;
    [reflexivity |].
  symmetry. repeat (apply andb_true_intro; split); apply Z.leb_le; lia.
Qed.

Lemma digit_char_of_value (c : ascii) :
  is_digit c = true ->
  digit_char (digit_value c) = c /\ 0 <= digit_value c <= 9.
Proof.
  destruct c as [[] [] [] [] [] [] [] []]; intros H;
    try discriminate H; split; try reflexivity; cbv; split; discriminate.
Qed.

Lemma four_digits_of_value (a b c d : Z) :
  0 <= a <= 9 -> 0 <= b <= 9 -> 0 <= c <= 9 -> 0 <= d <= 9 ->
  let y := 10 * (10 * (10 * (10 * 0 + a) + b) + c) + d in
  y / 1000 mod 10 = a /\ y / 100 mod 10 = b /\ y / 10 mod 10 = c /\ y mod 10 = d.
Proof.
  intros Ha Hb Hc Hd y. subst y.
  Z.to_euclidean_division_equations. lia.
Qed.

Lemma two_digits_of_value (a b : Z) :
  0 <= a <= 9 -> 0 <= b <= 9 ->
  let n := 10 * (10 * 0 + a) + b in
  n / 10 mod 10 = a /\ n mod 10 = b.
Proof.
  intros Ha Hb n. subst n.
  Z.to_euclidean_division_equations. lia.
Qed.

(** Every failure of the parser is a [ValueError]. *)
Lemma strptime_Ymd_error (s : string) (e : exn) :
  strptime_Ymd s = inl e -> e = ValueError.
Proof.
  unfold strptime_Ymd, make_date, raise, ret.
  repeat match goal with
         | |- context [if ?b then _ else _] => destruct b
         end; intros H; inversion H; reflexivity.
Qed.

(** What the parser accepts is the YYYYMMDD spelling of the date it
    returns, and that date is a date of the calendar. *)
Lemma strptime_Ymd_sound (s : string) (dt : datetime) :
  strptime_Ymd s = inr dt ->
  (s = four_digits (year dt) ++ two_digits (month dt) ++ two_digits (day dt))%string /\
  valid_date (year dt) (month dt) (day dt) = true.
Proof.
  unfold strptime_Ymd.
  destruct ((String.length s =? 8)%nat && all_digits s) eqn:Hshape;
    [| discriminate].
  apply andb_prop in Hshape. destruct Hshape as [Hlen Hdigits].
  apply Nat.eqb_eq in Hlen.
  do 8 (destruct s as [| ? s]; [discriminate Hlen |]).
  destruct s; [| discriminate Hlen]. clear Hlen.
  cbn [all_digits] in Hdigits.
  repeat (apply andb_prop in Hdigits; destruct Hdigits as [? Hdigits]).
  cbn [substring digits_value].
  repeat match goal with
         | H : is_digit ?c = true |- _ =>
             let E := fresh "E" in let R := fresh "R" in
             destruct (digit_char_of_value c H) as [E R]; clear H;
             set (digit_value c) in *
         end.
  match goal with
  | |- context [if ?b then _ else _] => destruct b; [| discriminate]
  end.
  unfold make_date.
  match goal with
  | |- context [if ?b then _ else _] => destruct b eqn:Hvalid; [| discriminate]
  end.
  unfold ret. intros H.
  match type of H with
  | inr ?x = inr _ => assert (Hdt : dt = x) by congruence
  end.
  subst dt. cbn [year month day].
  split; [| exact Hvalid].
  unfold four_digits, two_digits.
  repeat match goal with
         | |- context [(10 * (10 * (10 * (10 * 0 + ?a) + ?b) + ?c) + ?d) / 1000 mod 10] =>
             destruct (four_digits_of_value a b c d ltac:(assumption)
                         ltac:(assumption) ltac:(assumption) ltac:(assumption))
               as (-> & -> & -> & ->)
         | |- context [(10 * (10 * 0 + ?a) + ?b) / 10 mod 10] =>
             destruct (two_digits_of_value a b ltac:(assumption) ltac:(assumption))
               as (-> & ->)
         end.
  cbn [String.append]. congruence.
Qed.

(** ** The search for eight digits *)

Lemma re_search_d8_unfold (s : string) :
  re_search_d8 s =
  match digits_prefix 8 s with
  | Some token => Some token
  | None =>
      match s with
      | EmptyString => None
      | String _ s' => re_search_d8 s'
      end
  end.
Proof. destruct s; reflexivity. Qed.

Lemma digits_prefix_sound (n : nat) : forall s t,
  digits_prefix n s = Some t ->
  String.length t = n /\ all_digits t = true /\ exists post, s = (t ++ post)%string.
Proof.
  induction n as [| n IH]; intros s t H; simpl in H.
  - inversion H; subst. repeat split. exists s. reflexivity.
  - destruct s as [| c s']; [discriminate |].
    destruct (is_digit c) eqn:Hc; [| discriminate].
    destruct (digits_prefix n s') as [t' |] eqn:Ht; [| discriminate].
    inversion H; subst t. destruct (IH _ _ Ht) as (Hl & Hd & post & Hs).
    simpl. rewrite Hc, Hd, Hl. repeat split. exists post. now rewrite Hs at 1.
Qed.

Lemma digits_prefix_complete : forall t post,
  all_digits t = true ->
  digits_prefix (String.length t) (t ++ post) = Some t.
Proof.
  induction t as [| c t IH]; intros post H; simpl in *.
  - reflexivity.
  - apply andb_prop in H. destruct H as [Hc Ht].
    rewrite Hc, (IH post Ht). reflexivity.
Qed.

Lemma token_at_start (s tok : string) :
  token_at s EmptyString tok -> digits_prefix 8 s = Some tok.
Proof.
  intros [[Hl Hd] [post Hs]]. simpl in Hs. subst s.
  rewrite <- Hl. now apply digits_prefix_complete.
Qed.

Lemma token_at_tail (a c : ascii) (s pre tok : string) :
  token_at (String a s) (String c pre) tok -> token_at s pre tok.
Proof.
  intros [Hd [post Hs]]. split; [exact Hd |].
  exists post. simpl in Hs. now inversion Hs.
Qed.

Lemma token_at_cons (a : ascii) (s pre tok : string) :
  token_at s pre tok -> token_at (String a s) (String a pre) tok.
Proof.
  intros [Hd [post Hs]]. split; [exact Hd |].
  exists post. simpl. now rewrite Hs.
Qed.

Lemma token_at_empty (pre tok : string) : ~ token_at EmptyString pre tok.
Proof.
  intros [[Hl _] [post Hs]].
  destruct pre; simpl in Hs; [| discriminate].
  destruct tok; simpl in *; discriminate.
Qed.

(** A match of the search is a run of eight digits of the string. *)
Lemma re_search_d8_sound : forall s tok,
  re_search_d8 s = Some tok -> exists pre, token_at s pre tok.
Proof.
  induction s as [| a s IH]; intros tok H; rewrite re_search_d8_unfold in H.
  - simpl in H. discriminate.
  - destruct (digits_prefix 8 (String a s)) as [t |] eqn:E.
    + inversion H; subst t.
      destruct (digits_prefix_sound _ _ _ E) as (Hl & Hd & post & Hs).
      exists EmptyString. split; [split; assumption |]. exists post. exact Hs.
    + destruct (IH _ H) as [pre Hp].
      exists (String a pre). now apply token_at_cons.
Qed.

(** The search fails exactly on the strings without eight consecutive
    digits. *)
Lemma re_search_d8_none (s : string) :
  re_search_d8 s = None <-> ~ has_token s.
Proof.
  split.
  - induction s as [| a s IH]; intros H (pre & tok & Ht).
    + exact (token_at_empty _ _ Ht).
    + rewrite re_search_d8_unfold in H.
      destruct (digits_prefix 8 (String a s)) eqn:E; [discriminate |].
      destruct pre as [| c pre].
      * rewrite (token_at_start _ _ Ht) in E. discriminate.
      * apply (IH H). exists pre, tok. exact (token_at_tail _ _ _ _ _ Ht).
  - intros H. destruct (re_search_d8 s) as [tok |] eqn:E; [| reflexivity].
    exfalso. apply H. destruct (re_search_d8_sound _ _ E) as [pre Hp].
    exists pre, tok. exact Hp.
Qed.

(** The search answers with the leftmost run of eight digits. *)
Lemma re_search_d8_first : forall s tok,
  first_token s tok -> re_search_d8 s = Some tok.
Proof.
  induction s as [| a s IH]; intros tok (pre & Ht & Hmin).
  - exfalso. exact (token_at_empty _ _ Ht).
  - rewrite re_search_d8_unfold.
    destruct (digits_prefix 8 (String a s)) as [t |] eqn:E.
    + destruct (digits_prefix_sound _ _ _ E) as (Hl & Hd & post & Hs).
      assert (H0 : token_at (String a s) EmptyString t).
      { split; [split; assumption |]. exists post. exact Hs. }
      specialize (Hmin _ _ H0). destruct pre; [| simpl in Hmin; lia].
      rewrite (token_at_start _ _ Ht) in E. exact (eq_sym E).
    + destruct pre as [| c pre].
      * rewrite (token_at_start _ _ Ht) in E. discriminate.
      * apply IH. exists pre. split; [exact (token_at_tail _ _ _ _ _ Ht) |].
        intros pre' tok' H'.
        specialize (Hmin _ _ (token_at_cons a _ _ _ H')). simpl in Hmin. lia.
Qed.

(** Conversely, what the search answers with is the leftmost run. *)
Lemma re_search_d8_is_first : forall s tok,
  re_search_d8 s = Some tok -> first_token s tok.
Proof.
  induction s as [| a s IH]; intros tok H; rewrite re_search_d8_unfold in H.
  - simpl in H. discriminate.
  - destruct (digits_prefix 8 (String a s)) as [t |] eqn:E.
    + inversion H; subst t.
      destruct (digits_prefix_sound _ _ _ E) as (Hl & Hd & post & Hs).
      exists EmptyString. split.
      * split; [split; assumption |]. exists post. exact Hs.
      * intros pre' tok' _. simpl. lia.
    + destruct (IH _ H) as (pre & Ht & Hmin).
      exists (String a pre). split; [now apply token_at_cons |].
      intros pre' tok' H'. destruct pre' as [| c pre'].
      * rewrite (token_at_start _ _ H') in E. discriminate.
      * specialize (Hmin _ _ (token_at_tail _ _ _ _ _ H')). simpl. lia.
Qed.

Lemma days_in_month_le_31 (y m : Z) : days_in_month y m <= 31.
Proof.
  unfold days_in_month.
  destruct (m =? 2); [destruct (is_leap y); lia |].
  destruct ((m =? 4) || (m =? 6) || (m =? 9) || (m =? 11)); lia.
Qed.

Lemma valid_date_bounds (y m d : Z) :
  valid_date y m d = true ->
  1 <= y <= 9999 /\ 1 <= m <= 12 /\ 1 <= d <= days_in_month y m.
Proof.
  unfold valid_date, MINYEAR, MAXYEAR. intros H.
  repeat (apply andb_prop in H; destruct H as [H ?]).
  repeat match goal with
         | H : (_ <=? _) = true |- _ => apply Z.leb_le in H
         end.
  lia.
Qed.

(** ** The storage loop *)

Lemma for_each_app {A} (body : A -> M unit) : forall xs ys t,
  for_each (xs ++ ys) body t = (for_each xs body ;; for_each ys body)%workflow t.
Proof.
  induction xs as [| x xs IH]; intros ys t; simpl.
  - reflexivity.
  - unfold mbind in *. destruct (body x t) as [t' [e | []]].
    + reflexivity.
    + apply IH.
Qed.

(** One turn of the loop never raises: it makes either no call or the one
    [store_gazette] call with the date derived from the file name. *)
Lemma store_item_calls (w : World) (uploaded_url file_path : string)
  (t : list event) :
  store_item w (uploaded_url, file_path) t =
  match publication_date_of (basename file_path) with
  | inr publication_date =>
      (t ++ [StoreGazette publication_date uploaded_url], inr tt)
  | inl _ => (t, inr tt)
  end.
Proof.
  unfold store_item, except_ValueError, mbind, lift, store_gazette, call, mret.
  unfold publication_date_of.
  destruct (re_search_d8 (basename file_path)) as [date_str |]; [| reflexivity].
  unfold strptime_Ymd, make_date.
  repeat match goal with
         | |- context [if ?b then _ else _] => destruct b
         end; reflexivity.
Qed.

Lemma store_all_returns (w : World) : forall upload_map t,
  snd (store_all w upload_map t) = inr tt.
Proof.
  unfold store_all.
  induction upload_map as [| [u p] rest IH]; intros t; cbn [for_each];
    [reflexivity |].
  unfold mbind. rewrite store_item_calls.
  destruct (publication_date_of (basename p)); apply IH.
Qed.

(** C3 (as amended).  For every downloaded file whose name has, as its
    leftmost run of eight consecutive decimal digits, the spelling YYYYMMDD
    of a valid calendar date, the orchestrator derives exactly that date
    (at midnight) and hands it to the storage API with the file's URL. *)
Theorem publication_date_of_first_token
  (w : World) (uploaded_url file_path tok : string) (y m d : Z) (t : list event) :
  first_token (basename file_path) tok ->
  spells tok y m d ->
  valid_date y m d = true ->
  publication_date_of (basename file_path) = inr (mk_datetime y m d 0 0 0) /\
  store_item w (uploaded_url, file_path) t =
    (t ++ [StoreGazette (mk_datetime y m d 0 0 0) uploaded_url], inr tt).
Proof.
  intros Hfirst Hspell Hvalid.
  assert (Hdate : publication_date_of (basename file_path)
                  = inr (mk_datetime y m d 0 0 0)).
  { unfold publication_date_of. rewrite (re_search_d8_first _ _ Hfirst).
    rewrite Hspell.
    destruct (valid_date_bounds _ _ _ Hvalid) as (Hy & Hm & Hd).
    pose proof (days_in_month_le_31 y m).
    rewrite strptime_of_spelling by lia.
    unfold make_date. rewrite Hvalid. reflexivity. }
  split; [exact Hdate |].
  rewrite store_item_calls, Hdate. reflexivity.
Qed.

Lemma publication_date_of_first_token_witness :
  first_token (basename "/app/downloads/diario_20250715.pdf") "20250715" /\
  spells "20250715" 2025 7 15 /\
  valid_date 2025 7 15 = true /\
  publication_date_of (basename "/app/downloads/diario_20250715.pdf")
    = inr (mk_datetime 2025 7 15 0 0 0).
Proof.
  assert (Hfirst : first_token (basename "/app/downloads/diario_20250715.pdf")
                     "20250715").
  { apply re_search_d8_is_first. reflexivity. }
  split; [exact Hfirst |]. split; [reflexivity |]. split; [reflexivity |].
  exact (proj1 (publication_date_of_first_token (fair_weather [])
                  "https://files.example/1.pdf"
                  "/app/downloads/diario_20250715.pdf"
                  "20250715" 2025 7 15 [] Hfirst eq_refl eq_refl)).
Defined.

(** C3, as stated, fails: this name contains the date token 20250715,
    delimited by an underscore and a dot, yet the search stops at the
    earlier digits 12345678, which are no date, and no date is derived. *)
Lemma later_date_token_is_not_derived :
  token_at "123456789_20250715.pdf" "123456789_" "20250715" /\
  spells "20250715" 2025 7 15 /\
  valid_date 2025 7 15 = true /\
  re_search_d8 "123456789_20250715.pdf" = Some "12345678"%string /\
  publication_date_of "123456789_20250715.pdf" = inl ValueError /\
  publication_date_of "123456789_20250715.pdf"
    <> inr (mk_datetime 2025 7 15 0 0 0).
Proof.
  repeat split; try reflexivity.
  - exists ".pdf"%string. reflexivity.
  - discriminate.
Qed.

(** A name without any date token has no run of eight digits, or its
    leftmost run is no date: either way the derivation ends in
    [ValueError]. *)
Lemma no_date_token_no_date (filename : string) :
  ~ has_date_token filename -> publication_date_of filename = inl ValueError.
Proof.
  intros Hno. unfold publication_date_of.
  destruct (re_search_d8 filename) as [tok |] eqn:Hsearch; [| reflexivity].
  destruct (strptime_Ymd tok) as [e | dt] eqn:Hparse.
  - now rewrite (strptime_Ymd_error _ _ Hparse).
  - exfalso. apply Hno.
    destruct (re_search_d8_sound _ _ Hsearch) as [pre Hpre].
    destruct (strptime_Ymd_sound _ _ Hparse) as [Hspell Hvalid].
    exists pre, tok, (year dt), (month dt), (day dt).
    split; [exact Hpre |]. split; [exact Hspell | exact Hvalid].
Qed.

Lemma date_token_is_token (filename : string) :
  has_date_token filename -> has_token filename.
Proof.
  intros (pre & tok & y & m & d & Ht & _). exists pre, tok. exact Ht.
Qed.

(** C4.  A file whose name contains no 8-digit date token causes no call of
    the storage API, and the loop goes on: the run over the whole batch is
    the run over the files before it followed by the run over the files
    after it, and it ends without an exception. *)
Theorem file_without_token_is_skipped
  (w : World) (before after : list (string * string))
  (uploaded_url file_path : string) (t : list event) :
  ~ has_date_token (basename file_path) ->
  store_item w (uploaded_url, file_path) t = (t, inr tt) /\
  store_all w (before ++ (uploaded_url, file_path) :: after) t
    = (store_all w before ;; store_all w after)%workflow t /\
  snd (store_all w (before ++ (uploaded_url, file_path) :: after) t) = inr tt.
Proof.
  intros Hno.
  assert (Hskip : forall t', store_item w (uploaded_url, file_path) t' = (t', inr tt)).
  { intros t'. rewrite store_item_calls.
    rewrite (no_date_token_no_date _ Hno). reflexivity. }
  split; [apply Hskip |]. split; [| apply store_all_returns].
  unfold store_all. rewrite for_each_app. unfold mbind at 1 2.
  destruct (for_each before (store_item w) t) as [t' [e | []]]; [reflexivity |].
  cbn [for_each]. unfold mbind at 1. rewrite Hskip. reflexivity.
Qed.

Lemma file_without_token_is_skipped_witness :
  ~ has_date_token (basename "/app/downloads/erratum.pdf") /\
  store_all first_upload_refused
    [("https://files.example/1.pdf", "/app/downloads/diario_20250701.pdf");
     ("https://files.example/e.pdf", "/app/downloads/erratum.pdf");
     ("https://files.example/2.pdf", "/app/downloads/diario_20250702.pdf")]%string
    []
  = ([StoreGazette (mk_datetime 2025 7 1 0 0 0) "https://files.example/1.pdf";
      StoreGazette (mk_datetime 2025 7 2 0 0 0) "https://files.example/2.pdf"],
     inr tt).
Proof.
  assert (Hno : ~ has_date_token (basename "/app/downloads/erratum.pdf")).
  { intros H. apply date_token_is_token in H. revert H.
    apply re_search_d8_none. reflexivity. }
  split; [exact Hno |].
  refine (eq_trans
            (proj1 (proj2 (file_without_token_is_skipped first_upload_refused
               [("https://files.example/1.pdf", "/app/downloads/diario_20250701.pdf")]%string
               [("https://files.example/2.pdf", "/app/downloads/diario_20250702.pdf")]%string
               "https://files.example/e.pdf" "/app/downloads/erratum.pdf" [] Hno)))
            _).
  reflexivity.
Defined.

Example digits_that_are_no_date_are_skipped :
  publication_date_of "edital_20251345.pdf" = inl ValueError.
Proof. reflexivity. Qed.

(** ** The orchestrator *)

Lemma store_all_calls (w : World) : forall upload_map t,
  store_all w upload_map t = (t ++ flat_map stored_for upload_map, inr tt).
Proof.
  unfold store_all.
  induction upload_map as [| [u p] rest IH]; intros t; cbn [for_each flat_map].
  - unfold mret. now rewrite app_nil_r.
  - unfold mbind. rewrite store_item_calls. unfold stored_for at 1.
    cbn [fst snd].
    destruct (publication_date_of (basename p)); rewrite IH.
    + reflexivity.
    + now rewrite <- app_assoc.
Qed.

Lemma stored_for_are_store_calls : forall upload_map,
  Forall (fun ev => is_store_call ev = true) (flat_map stored_for upload_map).
Proof.
  induction upload_map as [| item rest IH]; cbn [flat_map]; [constructor |].
  apply Forall_app. split; [| exact IH].
  unfold stored_for. destruct (publication_date_of _); repeat constructor.
Qed.

(** The calls of a whole run, stage by stage. *)
Lemma run_full_workflow_calls (w : World) (settings : Settings) :
  calls_of (run_full_workflow w settings) =
  match setup_logging w, os_makedirs w (DOWNLOAD_PATH settings),
        webdriver_remote w with
  | inr _, inr _, inr _ =>
      FindAndDownloadFiles (TARGET_URL settings) ::
      match driver_quit w with
      | inl _ => []
      | inr _ =>
          match Scraper.find_and_download_files w (DOWNLOAD_PATH settings)
                  (TARGET_URL settings) with
          | inl _ => []
          | inr [] => []
          | inr downloaded_paths =>
              UploadFiles downloaded_paths ::
              match Uploader.upload_files w downloaded_paths with
              | inl _ => []
              | inr [] => []
              | inr uploaded_urls =>
                  flat_map stored_for (dict (zip uploaded_urls downloaded_paths))
              end
          end
      end
  | _, _, _ => []
  end.
Proof.
  unfold calls_of, run_full_workflow, scrape, upload, try_, mbind, lift, call, mret.
  destruct (setup_logging w) as [e | []]; [reflexivity |].
  destruct (os_makedirs w (DOWNLOAD_PATH settings)) as [e | []]; [reflexivity |].
  destruct (webdriver_remote w) as [e | []]; [reflexivity |].
  cbn [app].
  destruct (driver_quit w) as [e | []]; [reflexivity |].
  destruct (Scraper.find_and_download_files w (DOWNLOAD_PATH settings)
              (TARGET_URL settings)) as [e | [| p ps]]; try reflexivity.
  cbn [is_empty app].
  destruct (Uploader.upload_files w (p :: ps)) as [e | [| u us]]; try reflexivity.
  cbn [is_empty]. rewrite store_all_calls. reflexivity.
Qed.

(** A run in which the set-up succeeds, the driver session opens and
    closes, and both the scrape and the upload stage return something, is
    the storage loop over [upload_map], entered after the two stage calls. *)
Lemma run_full_workflow_reaches_storage
  (w : World) (settings : Settings)
  (downloaded_paths uploaded_urls : list string) :
  setup_logging w = inr tt ->
  os_makedirs w (DOWNLOAD_PATH settings) = inr tt ->
  webdriver_remote w = inr tt ->
  driver_quit w = inr tt ->
  Scraper.find_and_download_files w (DOWNLOAD_PATH settings) (TARGET_URL settings)
    = inr downloaded_paths ->
  downloaded_paths <> [] ->
  Uploader.upload_files w downloaded_paths = inr uploaded_urls ->
  uploaded_urls <> [] ->
  run_full_workflow w settings []
  = store_all w (dict (zip uploaded_urls downloaded_paths))
      [FindAndDownloadFiles (TARGET_URL settings); UploadFiles downloaded_paths].
Proof.
  intros Hlog Hdir Hdriver Hquit Hscrape Hpaths Hupload Hurls.
  unfold run_full_workflow, scrape, upload, try_, mbind, lift, call, mret.
  rewrite Hlog, Hdir, Hdriver, Hquit, Hscrape. cbn [app].
  destruct downloaded_paths as [| p ps]; [contradiction |]. cbn [is_empty].
  rewrite Hupload.
  destruct uploaded_urls as [| u us]; [contradiction |]. reflexivity.
Qed.

(** C8.  The calls of a run come in the order scrape, upload, store; when
    the scrape stage returns no file (or raises) neither the upload nor the
    storage API is called, and when the upload stage returns no URL (or
    raises) the storage API is not called.  And the stages do run: when the
    set-up succeeds and the driver session opens and closes, a scrape that
    returned files is followed by the upload of exactly these files, and an
    upload that returned URLs is followed by the storage loop over
    [upload_map]. *)
Theorem stages_run_in_sequence (w : World) (settings : Settings) :
  let calls := calls_of (run_full_workflow w settings) in
  let scraped :=
    Scraper.find_and_download_files w (DOWNLOAD_PATH settings)
      (TARGET_URL settings) in
  (exists stores,
      Forall (fun ev => is_store_call ev = true) stores /\
      (calls = [] \/
       calls = [FindAndDownloadFiles (TARGET_URL settings)] \/
       exists downloaded_paths,
         scraped = inr downloaded_paths /\
         calls = FindAndDownloadFiles (TARGET_URL settings)
                   :: UploadFiles downloaded_paths :: stores)) /\
  (scraped = inr [] \/ (exists e, scraped = inl e) ->
   Forall (fun ev => is_upload_call ev = false /\ is_store_call ev = false) calls) /\
  (forall downloaded_paths,
      scraped = inr downloaded_paths ->
      Uploader.upload_files w downloaded_paths = inr [] \/
      (exists e, Uploader.upload_files w downloaded_paths = inl e) ->
      Forall (fun ev => is_store_call ev = false) calls) /\
  (forall downloaded_paths,
      setup_logging w = inr tt ->
      os_makedirs w (DOWNLOAD_PATH settings) = inr tt ->
      webdriver_remote w = inr tt ->
      driver_quit w = inr tt ->
      scraped = inr downloaded_paths ->
      downloaded_paths <> [] ->
      (exists rest,
          calls = FindAndDownloadFiles (TARGET_URL settings)
                    :: UploadFiles downloaded_paths :: rest) /\
      (forall uploaded_urls,
          Uploader.upload_files w downloaded_paths = inr uploaded_urls ->
          uploaded_urls <> [] ->
          run_full_workflow w settings []
          = store_all w (dict (zip uploaded_urls downloaded_paths))
              [FindAndDownloadFiles (TARGET_URL settings);
               UploadFiles downloaded_paths])).
Proof.
  cbv zeta. split; [| split; [| split]].
  - rewrite run_full_workflow_calls.
    destruct (setup_logging w) as [e | []];
      [exists []; split; [constructor | now left] |].
    destruct (os_makedirs w (DOWNLOAD_PATH settings)) as [e | []];
      [exists []; split; [constructor | now left] |].
    destruct (webdriver_remote w) as [e | []];
      [exists []; split; [constructor | now left] |].
    destruct (driver_quit w) as [e | []];
      [exists []; split; [constructor | right; now left] |].
    destruct (Scraper.find_and_download_files w (DOWNLOAD_PATH settings)
                (TARGET_URL settings)) as [e | [| p ps]].
    + exists []. split; [constructor | right; now left].
    + exists []. split; [constructor | right; now left].
    + destruct (Uploader.upload_files w (p :: ps)) as [e | [| u us]].
      * exists []. split; [constructor |]. right; right.
        exists (p :: ps). now split.
      * exists []. split; [constructor |]. right; right.
        exists (p :: ps). now split.
      * exists (flat_map stored_for (dict (zip (u :: us) (p :: ps)))).
        split; [apply stored_for_are_store_calls |]. right; right.
        exists (p :: ps). now split.
  - rewrite run_full_workflow_calls. intros Hscraped.
    destruct (setup_logging w) as [e | []]; [constructor |].
    destruct (os_makedirs w (DOWNLOAD_PATH settings)) as [e | []]; [constructor |].
    destruct (webdriver_remote w) as [e | []]; [constructor |].
    destruct (driver_quit w) as [e | []]; [repeat constructor |].
    destruct Hscraped as [-> | [e ->]]; repeat constructor.
  - rewrite run_full_workflow_calls. intros downloaded_paths -> Huploaded.
    destruct (setup_logging w) as [e | []]; [constructor |].
    destruct (os_makedirs w (DOWNLOAD_PATH settings)) as [e | []]; [constructor |].
    destruct (webdriver_remote w) as [e | []]; [constructor |].
    destruct (driver_quit w) as [e | []]; [repeat constructor |].
    destruct downloaded_paths as [| p ps]; [repeat constructor |].
    destruct Huploaded as [-> | [e ->]]; repeat constructor.
  - intros downloaded_paths Hlog Hdir Hdriver Hquit Hscrape Hpaths. split.
    + rewrite run_full_workflow_calls, Hlog, Hdir, Hdriver, Hquit, Hscrape.
      destruct downloaded_paths as [| p ps]; [contradiction |]. eexists. reflexivity.
    + intros uploaded_urls Hupload Hurls.
      now apply run_full_workflow_reaches_storage.
Qed.

Lemma stages_run_in_sequence_witness :
  (Scraper.find_and_download_files (fair_weather []) (DOWNLOAD_PATH settings)
     (TARGET_URL settings) = inr [] /\
   Forall (fun ev => is_upload_call ev = false /\ is_store_call ev = false)
     (calls_of (run_full_workflow (fair_weather []) settings))) /\
  (let w := with_http_post_file (fair_weather [link_1]) (fun _ => NoReply) in
   Uploader.upload_files w [path_1] = inr [] /\
   Forall (fun ev => is_store_call ev = false)
     (calls_of (run_full_workflow w settings))) /\
  (let w := fair_weather [link_1; link_2] in
   Scraper.find_and_download_files w (DOWNLOAD_PATH settings) (TARGET_URL settings)
     = inr [path_1; path_2] /\
   run_full_workflow w settings []
   = ([ FindAndDownloadFiles (TARGET_URL settings);
        UploadFiles [path_1; path_2];
        StoreGazette (mk_datetime 2025 7 1 0 0 0)
          "https://files.example/app/downloads/diario_20250701.pdf";
        StoreGazette (mk_datetime 2025 7 2 0 0 0)
          "https://files.example/app/downloads/diario_20250702.pdf" ],
      inr tt)).
Proof.
  split; [| split].
  - split; [reflexivity |].
    apply (proj1 (proj2 (stages_run_in_sequence (fair_weather []) settings))).
    left. reflexivity.
  - cbv zeta. split; [reflexivity |].
    apply (proj1 (proj2 (proj2 (stages_run_in_sequence
                                  (with_http_post_file (fair_weather [link_1])
                                     (fun _ => NoReply)) settings))) [path_1]).
    + reflexivity.
    + left. reflexivity.
  - cbv zeta. split; [reflexivity |].
    refine (eq_trans
              (proj2 (proj2 (proj2 (proj2 (stages_run_in_sequence
                 (fair_weather [link_1; link_2]) settings)))
                 [path_1; path_2] eq_refl eq_refl eq_refl eq_refl eq_refl _)
                 ["https://files.example/app/downloads/diario_20250701.pdf";
                  "https://files.example/app/downloads/diario_20250702.pdf"]%string
                 eq_refl _) eq_refl); discriminate.
Defined.

(** C1 fails on this run.  Two files are downloaded and the upload of the
    first one meets a connection error: the URLs that remain are zipped
    with the unfiltered list of paths, so the URL of the second file is
    stored with the date of the first file's name. *)
Theorem url_stored_with_date_of_other_file :
  Scraper.find_and_download_files first_upload_refused
    (DOWNLOAD_PATH settings) (TARGET_URL settings) = inr [path_1; path_2] /\
  Uploader._upload_file first_upload_refused path_1 = inr None /\
  Uploader._upload_file first_upload_refused path_2
    = inr (Some "https://files.example/app/downloads/diario_20250702.pdf"%string) /\
  publication_date_of (basename path_2) = inr (mk_datetime 2025 7 2 0 0 0) /\
  calls_of (run_full_workflow first_upload_refused settings) =
    [ FindAndDownloadFiles (TARGET_URL settings);
      UploadFiles [path_1; path_2];
      StoreGazette (mk_datetime 2025 7 1 0 0 0)
        "https://files.example/app/downloads/diario_20250702.pdf" ].
Proof. repeat split; vm_compute; reflexivity. Qed.

(** C2 fails on these runs.  A response with an error status makes
    [raise_for_status] raise [HTTPStatusError], which neither
    [_download_file] nor [_upload_file] catches; a file that cannot be
    written makes [_download_file] raise [OSError].  The exception leaves
    the whole batch without a result list, although the second item alone
    succeeds, and the run stops there. *)
Theorem batch_lost_on_error_status_or_disk_error :
  (Scraper._download_file first_download_status_404 "/app/downloads" link_2
     = inr (Some path_2) /\
   Scraper._download_all_files first_download_status_404 "/app/downloads"
     [link_1; link_2] = inl (HTTPStatusError 404) /\
   calls_of (run_full_workflow first_download_status_404 settings)
     = [FindAndDownloadFiles (TARGET_URL settings)]) /\
  (Scraper._download_file first_download_unwritable "/app/downloads" link_2
     = inr (Some path_2) /\
   Scraper._download_all_files first_download_unwritable "/app/downloads"
     [link_1; link_2] = inl OSError) /\
  (Uploader._upload_file first_upload_status_500 path_2
     = inr (Some "https://files.example/app/downloads/diario_20250702.pdf"%string) /\
   Uploader.upload_files first_upload_status_500 [path_1; path_2]
     = inl (HTTPStatusError 500) /\
   calls_of (run_full_workflow first_upload_status_500 settings)
     = [FindAndDownloadFiles (TARGET_URL settings); UploadFiles [path_1; path_2]]).
Proof. repeat split; vm_compute; reflexivity. Qed.

(** What does hold of C2: connection errors are isolated. *)
Example download_survives_connection_error :
  Scraper._download_all_files first_download_refused "/app/downloads"
    [link_1; link_2] = inr [path_2].
Proof. reflexivity. Qed.

Example upload_survives_connection_error :
  Uploader.upload_files first_upload_refused [path_1; path_2]
  = inr ["https://files.example/app/downloads/diario_20250702.pdf"%string].
Proof. reflexivity. Qed.

(** ** What holds of the batches *)


(** X1.  In a batch of downloads where every failure is a connection error,
    the failed links are left out and every other link yields its path. *)
Lemma download_all_skips_connection_errors
  (w : World) (download_path : string) : forall links,
  (forall link, In link links ->
     http_get w link = NoReply \/
     exists status_code text,
       http_get w link = Reply status_code text /\
       is_success status_code = true /\
       can_write w (join download_path (basename link)) = true) ->
  Scraper._download_all_files w download_path links =
  inr (flat_map (fun link =>
                   match http_get w link with
                   | NoReply => []
                   | Reply _ _ => [join download_path (basename link)]
                   end) links).
Proof.
  unfold Scraper._download_all_files.
  induction links as [| link links IH]; intros Hall; [reflexivity |].
  assert (Htail := IH (fun l Hl => Hall l (or_intror Hl))).
  cbn [map_list flat_map].
  destruct (map_list (Scraper._download_file w download_path) links)
    as [e | results]; [discriminate |].
  cbn [bind ret] in Htail. inversion Htail as [Hresults].
  unfold Scraper._download_file.
  destruct (Hall link (or_introl eq_refl)) as [-> | (s & text & -> & Hs & Hw)].
  - cbn. rewrite Hresults. reflexivity.
  - unfold raise_for_status. cbn [request bind ret status_code].
    rewrite Hs. cbn [bind ret]. rewrite Hw.
    cbn. rewrite Hresults. reflexivity.
Qed.

(** X2.  In a batch of uploads where every failure is a connection error or
    an unreadable file, the failed files are left out and every other file
    yields its URL. *)
Lemma upload_files_skips_caught_errors (w : World) : forall file_paths,
  (forall file_path, In file_path file_paths ->
     can_read w file_path = false \/
     http_post_file w file_path = NoReply \/
     exists status_code text,
       http_post_file w file_path = Reply status_code text /\
       is_success status_code = true) ->
  Uploader.upload_files w file_paths =
  inr (flat_map (fun file_path =>
                   if can_read w file_path then
                     match http_post_file w file_path with
                     | NoReply => []
                     | Reply _ text => [strip text]
                     end
                   else []) file_paths).
Proof.
  unfold Uploader.upload_files.
  induction file_paths as [| p ps IH]; intros Hall; [reflexivity |].
  assert (Htail := IH (fun l Hl => Hall l (or_intror Hl))).
  cbn [map_list flat_map].
  destruct (map_list (Uploader._upload_file w) ps) as [e | results];
    [discriminate |].
  cbn [bind ret] in Htail. inversion Htail as [Hresults].
  unfold Uploader._upload_file.
  destruct (Hall p (or_introl eq_refl)) as [Hr | [Hp | (s & text & Hp & Hs)]].
  - rewrite Hr. cbn. rewrite Hresults. reflexivity.
  - rewrite Hp. destruct (can_read w p); cbn; rewrite Hresults; reflexivity.
  - rewrite Hp. destruct (can_read w p).
    + unfold raise_for_status. cbn [request bind ret status_code].
      rewrite Hs. cbn. rewrite Hresults. reflexivity.
    + cbn. rewrite Hresults. reflexivity.
Qed.




(** ** crud.py: creation *)

Lemma same_url_same_row (rows : list Gazette) :
  NoDup (map url rows) ->
  forall g g', In g rows -> In g' rows -> url g = url g' -> g = g'.
Proof.
  induction rows as [| r rows IH]; intros Hnd g g' Hg Hg' Hu; [contradiction |].
  cbn [map] in Hnd. inversion Hnd as [| ? ? Hnotin Hnd']; subst.
  destruct Hg as [-> | Hg], Hg' as [-> | Hg'].
  - reflexivity.
  - exfalso. apply Hnotin. rewrite Hu. now apply in_map.
  - exfalso. apply Hnotin. rewrite <- Hu. now apply in_map.
  - now apply IH.
Qed.

(** C5.  When a row with the submitted url exists, [create_gazette] returns
    a row of the table with that url (the pre-existing one, urls being
    unique) and leaves the database as it was; and every creation keeps the
    urls of the table unique. *)
Theorem create_gazette_is_idempotent (db : Session) (gazette : GazetteCreate) :
  (forall existing,
      In existing (gazettes db) -> url existing = create_url gazette ->
      exists db_gazette,
        create_gazette db gazette = (db_gazette, db) /\
        In db_gazette (gazettes db) /\
        url db_gazette = create_url gazette /\
        (url_unique db -> db_gazette = existing)) /\
  (url_unique db -> url_unique (snd (create_gazette db gazette))).
Proof.
  unfold create_gazette, first_by_url. split.
  - intros existing Hin Hurl.
    destruct (find (fun g => String.eqb (url g) (create_url gazette)) (gazettes db))
      as [g |] eqn:Hfind.
    + destruct (find_some _ _ Hfind) as [Hg Heq]. apply String.eqb_eq in Heq.
      exists g. repeat split; try assumption.
      intros Huniq. apply (same_url_same_row _ Huniq); congruence.
    + pose proof (find_none _ _ Hfind _ Hin) as Hne. cbv beta in Hne.
      apply String.eqb_neq in Hne. contradiction.
  - intros Huniq.
    destruct (find (fun g => String.eqb (url g) (create_url gazette)) (gazettes db))
      as [g |] eqn:Hfind; [exact Huniq |].
    unfold url_unique, add_commit_refresh. cbn [snd gazettes].
    rewrite map_app. cbn [map url]. apply NoDup_app.
    + exact Huniq.
    + repeat constructor. intros [].
    + intros u Hu [<- | []]. apply in_map_iff in Hu. destruct Hu as (x & Hx & Hin).
      pose proof (find_none _ _ Hfind _ Hin) as Hne. cbv beta in Hne.
      apply String.eqb_neq in Hne. contradiction.
Qed.

Lemma create_gazette_is_idempotent_witness :
  let gazette := {| create_url := "https://files.example/1.pdf";
                    create_publication_date := mk_datetime 2025 9 9 0 0 0 |} in
  url_unique two_rows /\
  create_gazette two_rows gazette = (gazette_1, two_rows) /\
  url_unique (snd (create_gazette two_rows gazette)).
Proof.
  cbv zeta.
  assert (Huniq : url_unique two_rows).
  { unfold url_unique. cbn. repeat constructor; cbn.
    - intros [H | []]. discriminate.
    - intros []. }
  split; [exact Huniq |]. split.
  - destruct (proj1 (create_gazette_is_idempotent two_rows
                       {| create_url := "https://files.example/1.pdf";
                          create_publication_date := mk_datetime 2025 9 9 0 0 0 |})
                gazette_1 (or_introl eq_refl) eq_refl)
      as (db_gazette & Hcreate & _ & _ & Hsame).
    rewrite Hcreate, (Hsame Huniq). reflexivity.
  - apply (proj2 (create_gazette_is_idempotent two_rows _)). exact Huniq.
Defined.

Example create_gazette_new_url :
  create_gazette two_rows
    {| create_url := "https://files.example/3.pdf";
       create_publication_date := mk_datetime 2025 8 2 0 0 0 |}
  = ({| id := 3; url := "https://files.example/3.pdf";
        publication_date := mk_datetime 2025 8 2 0 0 0 |},
     {| gazettes :=
          [gazette_1; gazette_2;
           {| id := 3; url := "https://files.example/3.pdf";
              publication_date := mk_datetime 2025 8 2 0 0 0 |}];
        next_id := 4 |}).
Proof. reflexivity. Qed.

(** ** main.py: the GET route *)

(** X4.  What does hold of C6: a month alone, and a year other than 0 alone,
    are rejected with status 400 and no record. *)
Lemma one_filter_alone_is_rejected (db : Session) (skip limit : option Z) :
  (forall m, 1 <= m <= 12 ->
     get_gazettes_route db
       {| q_month := Some m; q_year := None; q_skip := skip; q_limit := limit |}
     = {| status := 400; content := Detail both_required |}) /\
  (forall y, y <> 0 ->
     get_gazettes_route db
       {| q_month := None; q_year := Some y; q_skip := skip; q_limit := limit |}
     = {| status := 400; content := Detail both_required |}).
Proof.
  split.
  - intros m Hm. unfold get_gazettes_route, month_is_valid, read_gazettes, truthy.
    cbn [q_month q_year q_skip q_limit].
    destruct (Z.leb_spec 1 m); [| lia]. destruct (Z.leb_spec m 12); [| lia].
    destruct (Z.eqb_spec m 0); [lia |]. reflexivity.
  - intros y Hy. unfold get_gazettes_route, month_is_valid, read_gazettes, truthy.
    cbn [q_month q_year q_skip q_limit].
    destruct (Z.eqb_spec y 0); [contradiction |]. reflexivity.
Qed.

(** C6 fails on this request.  [GET /gazettes/?year=0] supplies a year and no
    month, yet [year] is falsy, neither test of the handler fires, and the
    request is answered like one without any filter: status 200 with the
    first page of all records. *)
Theorem year_zero_alone_is_not_rejected (db : Session) :
  get_gazettes_route db
    {| q_month := None; q_year := Some 0; q_skip := None; q_limit := None |}
  = {| status := 200; content := Rows (firstn 100 (gazettes db)) |} /\
  get_gazettes_route two_rows
    {| q_month := None; q_year := Some 0; q_skip := None; q_limit := None |}
  = {| status := 200; content := Rows [gazette_1; gazette_2] |}.
Proof.
  split; [| reflexivity].
  unfold get_gazettes_route, read_gazettes, get_gazettes.
  cbn [month_is_valid q_month q_year q_skip q_limit truthy default Z.eqb negb
       andb orb Z.ltb Z.compare of_result ret].
  reflexivity.
Qed.

(** C7.  When both a month in 1..12 and a year are supplied, the records of
    the response are exactly the stored records whose publication date has
    that month and that year.  (For year 0 the handler answers 400 with no
    record, and no stored date has year 0.) *)
Theorem filter_by_month_and_year
  (db : Session) (q : Query) (m y : Z) (g : Gazette) :
  dates_valid db ->
  q_month q = Some m -> 1 <= m <= 12 ->
  q_year q = Some y ->
  In g (records (get_gazettes_route db q)) <->
  In g (gazettes db) /\
  month (publication_date g) = m /\ year (publication_date g) = y.
Proof.
  intros Hvalid Hmonth Hm Hyear.
  unfold get_gazettes_route, month_is_valid, read_gazettes, truthy.
  rewrite Hmonth, Hyear.
  destruct (Z.leb_spec 1 m); [| lia]. destruct (Z.leb_spec m 12); [| lia].
  destruct (Z.eqb_spec m 0); [lia |].
  unfold dates_valid in Hvalid. rewrite Forall_forall in Hvalid.
  destruct (Z.eqb_spec y 0) as [-> | Hy]; cbn [negb andb orb].
  - cbn. split; [contradiction |]. intros (Hin & _ & Hzero).
    apply Hvalid, valid_date_bounds in Hin. lia.
  - unfold get_gazettes_by_month_year, in_int4.
    destruct (Z.leb_spec (-2147483648) m); [| lia].
    destruct (Z.leb_spec m 2147483647); [| lia].
    destruct (Z.leb_spec (-2147483648) y);
      [destruct (Z.leb_spec y 2147483647) |]; cbn.
    + rewrite !filter_In, !Z.eqb_eq. tauto.
    + split; [contradiction |]. intros (Hin & _ & Hy0).
      apply Hvalid, valid_date_bounds in Hin. lia.
    + split; [contradiction |]. intros (Hin & _ & Hy0).
      apply Hvalid, valid_date_bounds in Hin. lia.
Qed.

Lemma filter_by_month_and_year_witness :
  dates_valid two_rows /\
  (In gazette_1
     (records
        (get_gazettes_route two_rows
           {| q_month := Some 7; q_year := Some 2025;
              q_skip := None; q_limit := None |})) <->
   In gazette_1 (gazettes two_rows) /\
   month (publication_date gazette_1) = 7 /\
   year (publication_date gazette_1) = 2025).
Proof.
  assert (Hvalid : dates_valid two_rows) by (repeat constructor).
  split; [exact Hvalid |].
  apply (filter_by_month_and_year two_rows
           {| q_month := Some 7; q_year := Some 2025;
              q_skip := None; q_limit := None |} 7 2025 gazette_1 Hvalid).
  - reflexivity.
  - lia.
  - reflexivity.
Defined.

Example filter_july_2025 :
  get_gazettes_route two_rows
    {| q_month := Some 7; q_year := Some 2025; q_skip := None; q_limit := None |}
  = {| status := 200; content := Rows [gazette_1] |}.
Proof. reflexivity. Qed.

(** C10.  A request with [year=0] is handled as the same request without a
    year: with a month in 1..12 it is answered 400 and carries no record,
    whatever the table holds, so the rows are never filtered by year 0. *)
Theorem year_zero_is_treated_as_missing
  (db : Session) (m : Z) (skip limit : option Z) :
  1 <= m <= 12 ->
  (forall month s l,
      read_gazettes db month (Some 0) s l = read_gazettes db month None s l) /\
  get_gazettes_route db
    {| q_month := Some m; q_year := Some 0; q_skip := skip; q_limit := limit |}
  = get_gazettes_route db
      {| q_month := Some m; q_year := None; q_skip := skip; q_limit := limit |} /\
  get_gazettes_route db
    {| q_month := Some m; q_year := Some 0; q_skip := skip; q_limit := limit |}
  = {| status := 400; content := Detail both_required |}.
Proof.
  intros Hm.
  assert (Hsame : forall month s l,
             read_gazettes db month (Some 0) s l = read_gazettes db month None s l).
  { intros [k |] s l; unfold read_gazettes; cbn; [| reflexivity].
    destruct (k =? 0); reflexivity. }
  split; [exact Hsame |]. split.
  - unfold get_gazettes_route. cbn [q_month q_year q_skip q_limit].
    rewrite Hsame. reflexivity.
  - unfold get_gazettes_route, month_is_valid, read_gazettes, truthy.
    cbn [q_month q_year q_skip q_limit].
    destruct (Z.leb_spec 1 m); [| lia]. destruct (Z.leb_spec m 12); [| lia].
    destruct (Z.eqb_spec m 0); [lia |]. reflexivity.
Qed.

Lemma year_zero_is_treated_as_missing_witness :
  1 <= 7 <= 12 /\
  get_gazettes_route two_rows
    {| q_month := Some 7; q_year := Some 0; q_skip := None; q_limit := None |}
  = {| status := 400; content := Detail both_required |}.
Proof.
  split; [lia |].
  apply (year_zero_is_treated_as_missing two_rows 7 None None). lia.
Defined.

(** ** scraper.py: the month that is searched *)

Lemma days_in_month_ge_28 (y m : Z) : 28 <= days_in_month y m.
Proof.
  unfold days_in_month.
  destruct (m =? 2); [destruct (is_leap y); lia |].
  destruct ((m =? 4) || (m =? 6) || (m =? 9) || (m =? 11)); lia.
Qed.

Lemma valid_date_intro (y m d : Z) :
  1 <= y <= 9999 -> 1 <= m <= 12 -> 1 <= d <= days_in_month y m ->
  valid_date y m d = true.
Proof.
  intros Hy Hm Hd. unfold valid_date, MINYEAR, MAXYEAR.
  repeat (apply andb_true_intro; split); apply Z.leb_le; lia.
Qed.

(** C9.  For every current date (other than one in January of year 1, which
    has no previous month in the calendar) the month and year the scraper
    searches for are those of the previous calendar month: the month before
    the current one, in the same year, or December of the year before when
    the current month is January. *)
Theorem search_target_is_previous_month (w : World) :
  let now := today w in
  valid_date (year now) (month now) (day now) = true ->
  (year now, month now) <> (MINYEAR, 1) ->
  let target_month := if month now =? 1 then 12 else month now - 1 in
  let target_year := if month now =? 1 then year now - 1 else year now in
  Scraper.search_target now
    = inr (two_digits target_month, four_digits target_year) /\
  Scraper._perform_search w
    = submit_search w (two_digits target_month) (four_digits target_year).
Proof.
  cbv zeta. intros Hvalid Hnot.
  destruct (valid_date_bounds _ _ _ Hvalid) as (Hy & Hm & Hd).
  assert (Htarget :
    Scraper.search_target (today w)
    = inr (two_digits (if month (today w) =? 1 then 12 else month (today w) - 1),
           four_digits (if month (today w) =? 1 then year (today w) - 1
                        else year (today w)))).
  { unfold Scraper.search_target, minus_one_month, replace_date.
    destruct (Z.eqb_spec (month (today w)) 1) as [H1 | H1].
    - assert (Hyear : year (today w) <> 1).
      { intros Hyear. apply Hnot. unfold MINYEAR. now rewrite Hyear, H1. }
      rewrite H1. cbn [Z.add Z.ltb Z.compare Z.pos_sub Z.opp].
      pose proof (days_in_month_ge_28 (year (today w) - 1) 12).
      rewrite valid_date_intro by lia. reflexivity.
    - destruct (Z.ltb_spec 12 (month (today w) + -1)); [lia |].
      destruct (Z.ltb_spec (month (today w) + -1) 1); [lia |].
      pose proof (days_in_month_ge_28 (year (today w)) (month (today w) + -1)).
      rewrite valid_date_intro by lia.
      cbn [bind ret]. unfold strftime_m, strftime_Y. cbn [month year].
      replace (month (today w) + -1) with (month (today w) - 1) by lia.
      reflexivity. }
  split; [exact Htarget |].
  unfold Scraper._perform_search. rewrite Htarget. reflexivity.
Qed.

Lemma search_target_is_previous_month_witness :
  Scraper.search_target (today (fair_weather [])) = inr ("07", "2025")%string.
Proof.
  refine (proj1 (search_target_is_previous_month (fair_weather []) _ _)).
  - reflexivity.
  - discriminate.
Defined.

Example search_in_january_2026 :
  Scraper.search_target (mk_datetime 2026 1 15 8 0 0) = inr ("12", "2025")%string.
Proof. reflexivity. Qed.

Example search_on_31_march :
  Scraper.search_target (mk_datetime 2025 3 31 8 0 0) = inr ("02", "2025")%string /\
  minus_one_month (mk_datetime 2025 3 31 8 0 0) = inr (mk_datetime 2025 2 28 8 0 0).
Proof. split; reflexivity. Qed.

Example no_month_before_january_of_year_1 :
  Scraper.search_target (mk_datetime 1 1 15 8 0 0) = inl ValueError.
Proof. reflexivity. Qed.

(** * Further properties *)

Import Notions.

(** ** The orchestrator: exceptions and storage calls *)


Lemma dict_set_keys (d : list (string * string)) (k v : string) :
  NoDup (map fst d) ->
  NoDup (map fst (dict_set d k v)) /\
  (forall k', In k' (map fst (dict_set d k v)) <-> k' = k \/ In k' (map fst d)) /\
  (List.length (dict_set d k v) <= S (List.length d))%nat.
Proof.
  induction d as [| [k0 v0] d IH]; intros Hnd; cbn [dict_set].
  - cbn. split; [repeat constructor; intros [] |]. split; [| lia].
    intros k'. split; [intros [<- | []]; now left | intros [-> | []]; now left].
  - cbn [map fst] in Hnd. inversion Hnd as [| ? ? Hnotin Hnd']; subst.
    destruct (String.eqb_spec k0 k) as [-> | Hne].
    + cbn [map fst List.length]. split; [exact Hnd |]. split; [| lia].
      intros k'. cbn [In]. split; [intros [<- | Hin] | intros [-> | Hin]]; tauto.
    + destruct (IH Hnd') as (IHnd & IHin & IHlen).
      cbn [map fst List.length]. split; [| split; [| lia]].
      * constructor; [| exact IHnd]. rewrite IHin.
        intros [Heq | Hin]; [congruence | contradiction].
      * intros k'. cbn [In]. rewrite IHin. tauto.
Qed.

Lemma dict_fold_keys : forall pairs acc,
  NoDup (map fst acc) ->
  let d := fold_left (fun d kv => dict_set d (fst kv) (snd kv)) pairs acc in
  NoDup (map fst d) /\
  (forall k, In k (map fst d) -> In k (map fst acc) \/ In k (map fst pairs)) /\
  (List.length d <= List.length acc + List.length pairs)%nat.
Proof.
  induction pairs as [| [k v] pairs IH]; intros acc Hnd; cbn [fold_left].
  - cbv zeta. repeat split; [exact Hnd | tauto | lia].
  - cbn [fst snd].
    destruct (dict_set_keys acc k v Hnd) as (Hnd1 & Hin1 & Hlen1).
    destruct (IH _ Hnd1) as (Hnd2 & Hin2 & Hlen2). cbv zeta in *.
    repeat split; [exact Hnd2 | | cbn [List.length]; lia].
    intros k' Hk'. destruct (Hin2 _ Hk') as [Hacc | Hrest].
    + apply Hin1 in Hacc. destruct Hacc as [-> | Hacc]; [right; now left | now left].
    + right. now right.
Qed.

Lemma stored_urls_of_items : forall items,
  (forall u, In u (stored_urls (flat_map stored_for items)) -> In u (map fst items)) /\
  (NoDup (map fst items) -> NoDup (stored_urls (flat_map stored_for items))) /\
  (List.length (stored_urls (flat_map stored_for items)) <= List.length items)%nat.
Proof.
  induction items as [| [u p] items (IHin & IHnd & IHlen)].
  - cbn. repeat split; [tauto | constructor | lia].
  - cbn [flat_map]. unfold stored_for at 1 3 5. cbn [fst snd].
    destruct (publication_date_of (basename p)); cbn [app stored_urls map fst List.length].
    + repeat split.
      * intros u' Hu'. right. now apply IHin.
      * intros Hnd. inversion Hnd; subst. now apply IHnd.
      * lia.
    + repeat split.
      * intros u' [-> | Hu']; [now left | right; now apply IHin].
      * intros Hnd. inversion Hnd as [| ? ? Hnotin Hnd']; subst.
        constructor; [| now apply IHnd]. intros Hin. apply Hnotin. now apply IHin.
      * lia.
Qed.

(** X6.  In every run, no URL is handed to the storage API twice; when the
    upload stage returned a list of URLs, every stored URL is one of them,
    and there are at most as many storage calls as uploaded URLs and as
    downloaded files. *)
Theorem stored_urls_are_distinct_uploaded_urls (w : World) (settings : Settings) :
  let calls := calls_of (run_full_workflow w settings) in
  NoDup (stored_urls calls) /\
  forall downloaded_paths uploaded_urls,
    Scraper.find_and_download_files w (DOWNLOAD_PATH settings)
      (TARGET_URL settings) = inr downloaded_paths ->
    Uploader.upload_files w downloaded_paths = inr uploaded_urls ->
    (forall u, In u (stored_urls calls) -> In u uploaded_urls) /\
    (List.length (stored_urls calls) <= List.length uploaded_urls)%nat /\
    (List.length (stored_urls calls) <= List.length downloaded_paths)%nat.
Proof.
  cbv zeta. rewrite run_full_workflow_calls.
  assert (Hdict : forall urls paths,
    NoDup (stored_urls (flat_map stored_for (dict (zip urls paths)))) /\
    (forall u, In u (stored_urls (flat_map stored_for (dict (zip urls paths))))
               -> In u urls) /\
    (List.length (stored_urls (flat_map stored_for (dict (zip urls paths))))
     <= Nat.min (List.length urls) (List.length paths))%nat).
  { intros urls paths. unfold dict, zip.
    destruct (dict_fold_keys (combine urls paths) [] (NoDup_nil _))
      as (Hnd & Hin & Hlen). cbv zeta in *.
    destruct (stored_urls_of_items
                (fold_left (fun d kv => dict_set d (fst kv) (snd kv))
                   (combine urls paths) [])) as (Sin & Snd & Slen).
    split; [now apply Snd |]. split.
    - intros u Hu. apply Sin, Hin in Hu. destruct Hu as [[] | Hu].
      apply in_map_iff in Hu. destruct Hu as ([u' p'] & <- & Hpair).
      exact (in_combine_l _ _ _ _ Hpair).
    - rewrite length_combine in Hlen. cbn [List.length] in Hlen. lia. }
  assert (Hnone : NoDup (stored_urls []) /\
    forall downloaded_paths uploaded_urls : list string,
      Scraper.find_and_download_files w (DOWNLOAD_PATH settings)
        (TARGET_URL settings) = inr downloaded_paths ->
      Uploader.upload_files w downloaded_paths = inr uploaded_urls ->
      (forall u, In u (stored_urls []) -> In u uploaded_urls) /\
      (List.length (stored_urls []) <= List.length uploaded_urls)%nat /\
      (List.length (stored_urls []) <= List.length downloaded_paths)%nat).
  { split; [constructor |]. intros ? ? _ _. cbn. repeat split; try lia; tauto. }
  destruct (setup_logging w) as [e | []]; [exact Hnone |].
  destruct (os_makedirs w (DOWNLOAD_PATH settings)) as [e | []]; [exact Hnone |].
  destruct (webdriver_remote w) as [e | []]; [exact Hnone |].
  destruct (driver_quit w) as [e | []]; [exact Hnone |]. clear Hnone.
  destruct (Scraper.find_and_download_files w (DOWNLOAD_PATH settings)
              (TARGET_URL settings)) as [e | [| p ps]].
  - split; [constructor |]. intros ? ? H. discriminate H.
  - split; [constructor |]. intros ? ? _ _. cbn. repeat split; try lia; tauto.
  - destruct (Uploader.upload_files w (p :: ps)) as [e | [| u us]] eqn:Hup.
    + split; [constructor |]. intros ? ? H1 H2. inversion H1; subst.
      rewrite Hup in H2. discriminate H2.
    + split; [constructor |]. intros ? ? _ _. cbn. repeat split; try lia; tauto.
    + destruct (Hdict (u :: us) (p :: ps)) as (Hnd & Hin & Hlen).
      cbn [stored_urls]. split; [exact Hnd |].
      intros ? ? H1 H2. inversion H1; subst.
      rewrite Hup in H2. inversion H2; subst.
      repeat split; [exact Hin | lia | lia].
Qed.

Lemma stored_urls_are_distinct_uploaded_urls_witness :
  let w := fair_weather [link_1; link_2] in
  let calls := calls_of (run_full_workflow w settings) in
  Uploader.upload_files w [path_1; path_2]
    = inr ["https://files.example/app/downloads/diario_20250701.pdf";
           "https://files.example/app/downloads/diario_20250702.pdf"]%string /\
  (List.length (stored_urls calls) <= 2)%nat.
Proof.
  cbv zeta. split; [reflexivity |].
  exact (proj1 (proj2 (proj2 (stored_urls_are_distinct_uploaded_urls
                                (fair_weather [link_1; link_2]) settings)
                         [path_1; path_2] _ eq_refl eq_refl))).
Defined.

(** ** The dict [upload_map] *)

Lemma dict_set_items (d : list (string * string)) (k v k' v' : string) :
  NoDup (map fst d) ->
  (In (k', v') (dict_set d k v) <->
   (k' = k /\ v' = v) \/ (k' <> k /\ In (k', v') d)).
Proof.
  induction d as [| [k0 v0] d IH]; intros Hnd; cbn [dict_set].
  - cbn. split.
    + intros [H | []]. inversion H; subst. now left.
    + intros [[-> ->] | [_ []]]. now left.
  - cbn [map fst] in Hnd. inversion Hnd as [| ? ? Hnotin Hnd']; subst.
    destruct (String.eqb_spec k0 k) as [-> | Hne]; cbn [In].
    + split.
      * intros [H | H].
        -- inversion H; subst. now left.
        -- right. split; [| now right]. intros ->. apply Hnotin.
           change k with (fst (k, v')). now apply in_map.
      * intros [[-> ->] | [Hne [H | H]]]; [now left | | now right].
        inversion H; subst. contradiction.
    + rewrite (IH Hnd'). split.
      * intros [H | [H | [Hk H]]].
        -- inversion H; subst. right. split; [congruence | now left].
        -- now left.
        -- right. split; [exact Hk | now right].
      * intros [H | [Hk [H | H]]].
        -- right. now left.
        -- now left.
        -- right. right. now split.
Qed.

Lemma dict_fold_items : forall pairs acc k v,
  NoDup (map fst acc) ->
  (In (k, v) (fold_left (fun d kv => dict_set d (fst kv) (snd kv)) pairs acc) <->
   last_with_key pairs k v \/ (~ In k (map fst pairs) /\ In (k, v) acc)).
Proof.
  induction pairs as [| [k0 v0] pairs IH]; intros acc k v Hnd; cbn [fold_left].
  - split.
    + intros H. right. split; [intros [] | exact H].
    + intros [(before & after & Heq & _) | [_ H]]; [| exact H].
      destruct before; discriminate Heq.
  - cbn [fst snd].
    rewrite (IH _ k v (proj1 (dict_set_keys acc k0 v0 Hnd))).
    rewrite (dict_set_items acc k0 v0 k v Hnd). cbn [map fst In]. split.
    + intros [(before & after & -> & Hlast) | [Hnot [[-> ->] | [Hne Hacc]]]].
      * left. exists ((k0, v0) :: before), after. now split.
      * left. exists [], pairs. now split.
      * right. split; [| exact Hacc]. intros [H | H]; [congruence | contradiction].
    + intros [(before & after & Heq & Hlast) | [Hnot Hacc]].
      * destruct before as [| b before]; cbn [app] in Heq.
        -- inversion Heq; subst. right. split; [exact Hlast | now left].
        -- inversion Heq; subst. left. exists before, after. now split.
      * right. split; [tauto |]. right. split; [| exact Hacc].
        intros ->. apply Hnot. now left.
Qed.

(** X17.  [upload_map] holds, for every URL of the zipped pairs, exactly one
    item: the URL with the path of the last pair that carries it.  When two
    uploads return the same URL, the earlier file is silently dropped. *)
Theorem upload_map_keeps_last_path (uploaded_urls downloaded_paths : list string)
  (uploaded_url file_path : string) :
  In (uploaded_url, file_path) (dict (zip uploaded_urls downloaded_paths)) <->
  last_with_key (zip uploaded_urls downloaded_paths) uploaded_url file_path.
Proof.
  unfold dict. rewrite dict_fold_items by constructor.
  split; [| now left]. intros [H | [_ []]]. exact H.
Qed.

Example same_url_twice_keeps_last_path :
  dict (zip ["u"; "v"; "u"] ["a_20250701.pdf"; "b_20250702.pdf"; "c_20250703.pdf"])%string
  = [("u", "c_20250703.pdf"); ("v", "b_20250702.pdf")]%string.
Proof. reflexivity. Qed.

(** ** The date derived from a file name *)

Lemma strptime_Ymd_at_midnight (s : string) (dt : datetime) :
  strptime_Ymd s = inr dt -> at_midnight dt.
Proof.
  unfold strptime_Ymd, make_date, raise, ret.
  repeat match goal with
         | |- context [if ?b then _ else _] => destruct b
         end; intros H; try discriminate H.
  match type of H with
  | inr ?x = inr _ => assert (Hdt : dt = x) by congruence
  end.
  subst dt. repeat split.
Qed.

(** X7.  A publication date is derived for a file name exactly when the
    leftmost run of eight decimal digits of the name spells a valid calendar
    date as YYYYMMDD, and the derived date is that day at midnight; in every
    other case the derivation raises [ValueError]. *)
Theorem publication_date_of_characterised (filename : string) (dt : datetime) :
  (publication_date_of filename = inr dt <->
   exists tok,
     first_token filename tok /\
     spells tok (year dt) (month dt) (day dt) /\
     valid_date (year dt) (month dt) (day dt) = true /\
     at_midnight dt) /\
  (forall e, publication_date_of filename = inl e -> e = ValueError).
Proof.
  unfold publication_date_of. split.
  - split.
    + destruct (re_search_d8 filename) as [tok |] eqn:Hsearch; [| discriminate].
      intros Hparse. exists tok.
      destruct (strptime_Ymd_sound _ _ Hparse) as [Hspell Hvalid].
      split; [now apply re_search_d8_is_first |].
      split; [exact Hspell |]. split; [exact Hvalid |].
      exact (strptime_Ymd_at_midnight _ _ Hparse).
    + intros (tok & Hfirst & Hspell & Hvalid & Hh & Hm & Hs).
      rewrite (re_search_d8_first _ _ Hfirst). rewrite Hspell.
      destruct (valid_date_bounds _ _ _ Hvalid) as (By & Bm & Bd).
      pose proof (days_in_month_le_31 (year dt) (month dt)).
      rewrite strptime_of_spelling by lia.
      unfold make_date. rewrite Hvalid.
      destruct dt as [y m d h mi s]. cbn in *. subst. reflexivity.
  - intros e. destruct (re_search_d8 filename) as [tok |].
    + apply strptime_Ymd_error.
    + intros H. inversion H. reflexivity.
Qed.

(** ** Paths: [basename] and [join] *)

Lemma rfind_from_no_slash : forall s i last,
  has_slash s = false -> rfind_from "/" s i last = last.
Proof.
  induction s as [| c s IH]; intros i last H; cbn in *; [reflexivity |].
  apply orb_false_elim in H. destruct H as [Hc Hs].
  rewrite Hc. now apply IH.
Qed.

Lemma rfind_from_app : forall a b i last,
  rfind_from "/" (a ++ b) i last
  = rfind_from "/" b (i + Z.of_nat (String.length a)) (rfind_from "/" a i last).
Proof.
  induction a as [| c a IH]; intros b i last; cbn [String.append rfind_from String.length].
  - f_equal. lia.
  - rewrite IH. f_equal. lia.
Qed.

Lemma drop_app_length : forall a b, drop (String.length a) (a ++ b) = b.
Proof. induction a as [| c a IH]; intros b; cbn; [now destruct b | apply IH]. Qed.

Lemma drop_0 (s : string) : drop 0 s = s.
Proof. reflexivity. Qed.

(** The base name of anything that ends in a separator and a name without
    separator is that name. *)
Lemma basename_after_slash (a f : string) :
  has_slash f = false -> basename (a ++ String "/" f) = f.
Proof.
  intros Hf. unfold basename, rfind, slice_from.
  rewrite rfind_from_app. cbn [rfind_from]. rewrite Ascii.eqb_refl.
  rewrite (rfind_from_no_slash f _ _ Hf).
  replace (Z.to_nat (0 + Z.of_nat (String.length a) + 1))
    with (S (String.length a)) by lia.
  change (S (String.length a)) with (String.length (String "/" a)).
  clear Hf. induction a as [| c a IH]; cbn; [reflexivity | exact IH].
Qed.

Lemma basename_without_slash (p : string) :
  has_slash p = false -> basename p = p.
Proof.
  intros H. unfold basename, rfind, slice_from.
  rewrite (rfind_from_no_slash p _ _ H). reflexivity.
Qed.

Lemma split_at_last_slash : forall p,
  has_slash p = false \/
  exists a f, p = (a ++ String "/" f)%string /\ has_slash f = false.
Proof.
  induction p as [| c p IH]; [now left |].
  destruct IH as [Hno | (a & f & -> & Hf)].
  - cbn [has_slash]. destruct (Ascii.eqb_spec c "/"%char) as [-> | Hc].
    + right. exists EmptyString, p. now split.
    + left. exact Hno.
  - right. exists (String c a), f. now split.
Qed.

Lemma basename_has_no_slash (p : string) : has_slash (basename p) = false.
Proof.
  destruct (split_at_last_slash p) as [Hno | (a & f & -> & Hf)].
  - now rewrite basename_without_slash.
  - now rewrite basename_after_slash.
Qed.

Lemma ends_with_slash_split : forall a,
  ends_with_slash a = true -> exists a', a = (a' ++ "/")%string.
Proof.
  induction a as [| c a IH]; intros H; [discriminate |].
  destruct a as [| d a].
  - cbn in H. apply Ascii.eqb_eq in H. subst c. now exists EmptyString.
  - destruct (IH H) as [a' Ha']. exists (String c a'). cbn. now rewrite <- Ha'.
Qed.

Lemma append_assoc_slash (a f : string) :
  ((a ++ "/") ++ f)%string = (a ++ String "/" f)%string.
Proof. induction a as [| c a IH]; cbn; [reflexivity | now rewrite IH]. Qed.

Lemma join_without_slash (a f : string) :
  has_slash f = false ->
  join a f = match a with
             | EmptyString => f
             | _ => if ends_with_slash a then (a ++ f)%string
                    else (a ++ "/" ++ f)%string
             end.
Proof.
  intros Hf. unfold join. destruct f as [| c f]; [reflexivity |].
  cbn [has_slash] in Hf. apply orb_false_elim in Hf. destruct Hf as [Hc _].
  destruct c as [[] [] [] [] [] [] [] []]; try reflexivity; discriminate Hc.
Qed.

(** Joining a directory and a name without separator, then taking the base
    name, gives the name back. *)
Lemma basename_join (a f : string) :
  has_slash f = false -> basename (join a f) = f.
Proof.
  intros Hf. rewrite (join_without_slash a f Hf).
  destruct a as [| c a]; [now apply basename_without_slash |].
  destruct (ends_with_slash (String c a)) eqn:Hends.
  - destruct (ends_with_slash_split _ Hends) as [a' ->].
    rewrite append_assoc_slash. now apply basename_after_slash.
  - change ("/" ++ f)%string with (String "/" f).
    now apply basename_after_slash.
Qed.

(** X8.  A downloaded file is saved under the last component of its link,
    directly in the download directory: the name the orchestrator later
    parses for a date is the base name of the link, whatever digits or
    separators the download directory contains. *)
Theorem downloaded_file_keeps_link_name
  (w : World) (download_path link save_path : string) :
  Scraper._download_file w download_path link = inr (Some save_path) ->
  save_path = join download_path (basename link) /\
  basename save_path = basename link /\
  publication_date_of (basename save_path) = publication_date_of (basename link).
Proof.
  intros H.
  assert (Hpath : save_path = join download_path (basename link)).
  { unfold Scraper._download_file in H.
    destruct (bind (request (http_get w link)) _) as [[] | path] eqn:Hb;
      try discriminate H.
    inversion H; subst path. clear H.
    destruct (request (http_get w link)) as [e | response]; [discriminate Hb |].
    cbn [bind] in Hb.
    destruct (raise_for_status response) as [e | []]; [discriminate Hb |].
    cbn [bind] in Hb.
    destruct (can_write w (join download_path (basename link)));
      [| discriminate Hb].
    inversion Hb. reflexivity. }
  assert (Hname : basename save_path = basename link).
  { rewrite Hpath. apply basename_join, basename_has_no_slash. }
  repeat split; [exact Hpath | exact Hname | now rewrite Hname].
Qed.

Lemma downloaded_file_keeps_link_name_witness :
  Scraper._download_file (fair_weather [link_1]) "/data/20240101/in" link_1
    = inr (Some "/data/20240101/in/diario_20250701.pdf"%string) /\
  basename "/data/20240101/in/diario_20250701.pdf" = basename link_1.
Proof.
  split; [reflexivity |].
  exact (proj1 (proj2 (downloaded_file_keeps_link_name (fair_weather [link_1])
                         "/data/20240101/in" link_1
                         "/data/20240101/in/diario_20250701.pdf" eq_refl))).
Defined.

Lemma publication_date_of_characterised_witness :
  publication_date_of "diario_20250715.pdf" = inr (mk_datetime 2025 7 15 0 0 0) /\
  exists tok,
    first_token "diario_20250715.pdf" tok /\ spells tok 2025 7 15 /\
    valid_date 2025 7 15 = true /\ at_midnight (mk_datetime 2025 7 15 0 0 0).
Proof.
  split; [reflexivity |].
  exact (proj1 (proj1 (publication_date_of_characterised "diario_20250715.pdf"
                         (mk_datetime 2025 7 15 0 0 0))) eq_refl).
Defined.

(** ** The batches of the scraper and of the uploader *)

Lemma map_list_results {A B} (f : A -> result B) : forall xs ys,
  map_list f xs = inr ys ->
  List.length ys = List.length xs /\
  forall y, In y ys -> exists x, In x xs /\ f x = inr y.
Proof.
  induction xs as [| x xs IH]; intros ys H; cbn [map_list] in H.
  - inversion H; subst. split; [reflexivity | intros ? []].
  - destruct (f x) as [e | y0] eqn:Hx; [discriminate H |]. cbn [bind] in H.
    destruct (map_list f xs) as [e | ys0]; [discriminate H |].
    cbn in H. inversion H; subst. destruct (IH _ eq_refl) as [Hlen Hin].
    split; [cbn; now rewrite Hlen |].
    intros y [<- | Hy].
    + exists x. split; [now left | exact Hx].
    + destruct (Hin _ Hy) as (x' & Hx' & Hfx'). exists x'. split; [now right | exact Hfx'].
Qed.

Lemma not_none_results {A} : forall results : list (option A),
  (List.length (not_none results) <= List.length results)%nat /\
  forall v, In v (not_none results) <-> In (Some v) results.
Proof.
  induction results as [| [v0 |] results [IHlen IHin]]; cbn [not_none List.length In].
  - split; [lia | tauto].
  - split; [lia |]. intros v. rewrite IHin. split.
    + intros [-> | H]; [now left | now right].
    + intros [H | H]; [inversion H; now left | now right].
  - split; [lia |]. intros v. rewrite IHin. split.
    + intros H. now right.
    + intros [H | H]; [discriminate H | exact H].
Qed.

(** X9.  The links the scraper collects are exactly the non-empty [href]
    values of the anchors of the results table: an anchor without [href] or
    with an empty one never yields a link. *)
Theorem pdf_links_are_nonempty_hrefs (w : World) (pdf_links : list string) :
  Scraper._find_pdf_links w = inr pdf_links ->
  exists hrefs,
    table_hrefs w = inr hrefs /\
    forall link, In link pdf_links <-> link <> EmptyString /\ In (Some link) hrefs.
Proof.
  unfold Scraper._find_pdf_links.
  destruct (table_hrefs w) as [e | hrefs]; [discriminate |].
  cbn. intros H. inversion H; subst. exists hrefs. split; [reflexivity |].
  clear H. intros link.
  induction hrefs as [| [[| c href] |] hrefs IH]; cbn [Scraper.truthy_hrefs In].
  - tauto.
  - rewrite IH. split.
    + intros [Hne Hin]. split; [exact Hne | now right].
    + intros [Hne [H | H]]; [inversion H; congruence | now split].
  - rewrite IH. split.
    + intros [<- | [Hne Hin]]; [split; [discriminate | now left] | split; [exact Hne | now right]].
    + intros [Hne [H | H]]; [inversion H; now left | right; now split].
  - rewrite IH. split.
    + intros [Hne Hin]. split; [exact Hne | now right].
    + intros [Hne [H | H]]; [discriminate H | now split].
Qed.

Lemma pdf_links_are_nonempty_hrefs_witness :
  Scraper._find_pdf_links (fair_weather [link_1; EmptyString; link_2])
    = inr [link_1; link_2] /\
  exists hrefs,
    table_hrefs (fair_weather [link_1; EmptyString; link_2]) = inr hrefs /\
    forall link, In link [link_1; link_2]
                 <-> link <> EmptyString /\ In (Some link) hrefs.
Proof.
  cbv zeta. split; [reflexivity |].
  exact (pdf_links_are_nonempty_hrefs (fair_weather [link_1; EmptyString; link_2])
           [link_1; link_2] eq_refl).
Defined.

(** X10.  Whenever a batch of downloads returns, it returns at most one path
    per link, and every returned path is the save path of a link of the
    batch that was answered with a success status and could be written. *)
Theorem downloaded_paths_come_from_links
  (w : World) (download_path : string) (links downloaded_files : list string) :
  Scraper._download_all_files w download_path links = inr downloaded_files ->
  (List.length downloaded_files <= List.length links)%nat /\
  forall save_path, In save_path downloaded_files ->
    exists link status_code text,
      In link links /\
      save_path = join download_path (basename link) /\
      http_get w link = Reply status_code text /\
      is_success status_code = true /\
      can_write w save_path = true.
Proof.
  unfold Scraper._download_all_files. intros H.
  destruct (map_list (Scraper._download_file w download_path) links)
    as [e | results] eqn:Hmap; [discriminate H |].
  cbn in H. inversion H; subst. clear H.
  destruct (map_list_results _ _ _ Hmap) as [Hlen Hin].
  destruct (not_none_results results) as [Nlen Nin].
  split; [lia |]. intros save_path Hp. apply Nin, Hin in Hp.
  destruct Hp as (link & Hlink & Hfile). exists link.
  unfold Scraper._download_file in Hfile.
  destruct (http_get w link) as [code body |] eqn:Hget;
    [| discriminate Hfile].
  exists code, body. unfold raise_for_status in Hfile.
  cbn [request bind ret status_code] in Hfile.
  destruct (is_success code) eqn:Hs.
  - cbn [bind ret] in Hfile.
    destruct (can_write w (join download_path (basename link))) eqn:Hw;
      [| discriminate Hfile].
    inversion Hfile; subst. repeat split; assumption.
  - discriminate Hfile.
Qed.

Lemma downloaded_paths_come_from_links_witness :
  Scraper._download_all_files first_download_refused "/app/downloads"
    [link_1; link_2] = inr [path_2] /\
  (List.length [path_2] <= List.length [link_1; link_2])%nat.
Proof.
  split; [reflexivity |].
  exact (proj1 (downloaded_paths_come_from_links first_download_refused
                  "/app/downloads" [link_1; link_2] [path_2] eq_refl)).
Defined.

(** *** Stripped bodies *)

Lemma lstrip_head (s : string) :
  lstrip s = EmptyString \/
  exists c t, lstrip s = String c t /\ is_space c = false.
Proof.
  induction s as [| c s IH]; [now left |]. cbn [lstrip].
  destruct (is_space c) eqn:Hc; [exact IH |]. right. now exists c, s.
Qed.

Lemma rstrip_idempotent : forall s, rstrip (rstrip s) = rstrip s.
Proof.
  induction s as [| c s IH]; [reflexivity |]. cbn [rstrip].
  destruct (rstrip s) as [| d r] eqn:Hr.
  - destruct (is_space c) eqn:Hc; [reflexivity |]. cbn [rstrip]. now rewrite Hc.
  - cbn [rstrip]. cbn [rstrip] in IH. rewrite IH. reflexivity.
Qed.

Lemma rstrip_keeps_head (c : ascii) (t : string) :
  is_space c = false -> exists r, rstrip (String c t) = String c r.
Proof.
  intros Hc. cbn [rstrip]. destruct (rstrip t) as [| d r].
  - rewrite Hc. now exists EmptyString.
  - now exists (String d r).
Qed.

(** Stripping twice is stripping once: a stripped string has no white
    space at either end. *)
Lemma strip_idempotent (s : string) : strip (strip s) = strip s.
Proof.
  unfold strip. destruct (lstrip_head s) as [-> | (c & t & -> & Hc)];
    [reflexivity |].
  destruct (rstrip_keeps_head c t Hc) as [r Hr].
  assert (Hl : lstrip (rstrip (String c t)) = rstrip (String c t)).
  { rewrite Hr. cbn [lstrip]. now rewrite Hc. }
  rewrite Hl. apply rstrip_idempotent.
Qed.

(** X11.  Whenever a batch of uploads returns, it returns at most one URL
    per file, and every returned URL is the body, stripped of surrounding
    white space, of a success response to the upload of a readable file of
    the batch. *)
Theorem uploaded_urls_come_from_files
  (w : World) (file_paths uploaded_urls : list string) :
  Uploader.upload_files w file_paths = inr uploaded_urls ->
  (List.length uploaded_urls <= List.length file_paths)%nat /\
  forall url, In url uploaded_urls ->
    strip url = url /\
    exists file_path code body,
      In file_path file_paths /\
      can_read w file_path = true /\
      http_post_file w file_path = Reply code body /\
      is_success code = true /\
      url = strip body.
Proof.
  unfold Uploader.upload_files. intros H.
  destruct (map_list (Uploader._upload_file w) file_paths)
    as [e | results] eqn:Hmap; [discriminate H |].
  cbn in H. inversion H; subst. clear H.
  destruct (map_list_results _ _ _ Hmap) as [Hlen Hin].
  destruct (not_none_results results) as [Nlen Nin].
  split; [lia |]. intros url Hu. apply Nin, Hin in Hu.
  destruct Hu as (file_path & Hfile & Hup).
  unfold Uploader._upload_file in Hup.
  destruct (can_read w file_path) eqn:Hr; [| discriminate Hup].
  destruct (http_post_file w file_path) as [code body |] eqn:Hpost;
    [| discriminate Hup].
  unfold raise_for_status in Hup. cbn [request bind ret status_code text] in Hup.
  destruct (is_success code) eqn:Hs; [| discriminate Hup].
  cbn [bind ret text] in Hup. inversion Hup; subst.
  split; [apply strip_idempotent |].
  exists file_path, code, body. repeat split; assumption.
Qed.

Lemma uploaded_urls_come_from_files_witness :
  Uploader.upload_files first_upload_refused [path_1; path_2]
    = inr ["https://files.example/app/downloads/diario_20250702.pdf"%string] /\
  (List.length ["https://files.example/app/downloads/diario_20250702.pdf"%string]
   <= List.length [path_1; path_2])%nat.
Proof.
  split; [reflexivity |].
  exact (proj1 (uploaded_urls_come_from_files first_upload_refused
                  [path_1; path_2]
                  ["https://files.example/app/downloads/diario_20250702.pdf"%string]
                  eq_refl)).
Defined.

(** *** Isolation of the caught failures *)

Lemma download_all_skips_connection_errors_witness :
  Scraper._download_all_files first_download_refused "/app/downloads"
    [link_1; link_2] = inr [path_2].
Proof.
  refine (eq_trans
            (download_all_skips_connection_errors first_download_refused
               "/app/downloads" [link_1; link_2] _) eq_refl).
  intros link [<- | [<- | []]].
  - left. reflexivity.
  - right. exists 200, "%PDF-1.4"%string. repeat split.
Defined.

Lemma upload_files_skips_caught_errors_witness :
  Uploader.upload_files first_upload_refused [path_1; path_2]
    = inr ["https://files.example/app/downloads/diario_20250702.pdf"%string].
Proof.
  refine (eq_trans
            (upload_files_skips_caught_errors first_upload_refused
               [path_1; path_2] _) eq_refl).
  intros file_path [<- | [<- | []]].
  - right. left. reflexivity.
  - right. right.
    exists 200, "https://files.example/app/downloads/diario_20250702.pdf "%string.
    split; reflexivity.
Defined.

Lemma one_filter_alone_is_rejected_witness :
  1 <= 7 <= 12 /\ 2025 <> 0 /\
  get_gazettes_route two_rows
    {| q_month := Some 7; q_year := None; q_skip := None; q_limit := None |}
  = {| status := 400; content := Detail both_required |} /\
  get_gazettes_route two_rows
    {| q_month := None; q_year := Some 2025; q_skip := None; q_limit := None |}
  = {| status := 400; content := Detail both_required |}.
Proof.
  split; [lia |]. split; [discriminate |]. split.
  - apply (proj1 (one_filter_alone_is_rejected two_rows None None)). lia.
  - apply (proj2 (one_filter_alone_is_rejected two_rows None None)). discriminate.
Defined.

(** ** Runs in which every upload succeeds *)



(** X16.  The replies of the storage API have no influence on what a run
    does: whether a POST to [/gazettes/] succeeds, is refused or cannot be
    sent, the same calls are made, so a failed storage call never stops the
    storage of the remaining files. *)
Theorem storage_replies_do_not_change_the_run
  (w : World) (settings : Settings) (post : string -> datetime -> http_reply) :
  calls_of (run_full_workflow (with_http_post_gazette w post) settings)
  = calls_of (run_full_workflow w settings).
Proof.
  rewrite !run_full_workflow_calls. reflexivity.
Qed.

(** ** crud.py: creation and pagination *)

Lemma find_after_append {A} (f : A -> bool) (x : A) : forall l,
  find f (l ++ [x]) = match find f l with
                      | Some y => Some y
                      | None => if f x then Some x else None
                      end.
Proof.
  induction l as [| a l IH]; cbn; [reflexivity |].
  destruct (f a); [reflexivity | exact IH].
Qed.

(** X12.  After a gazette has been created, every later creation with the
    same url returns that first record and changes nothing, whatever
    publication date the later request carries: the first write wins. *)
Theorem later_create_returns_first_record
  (db : Session) (gazette later : GazetteCreate) :
  create_url later = create_url gazette ->
  create_gazette (snd (create_gazette db gazette)) later
  = (fst (create_gazette db gazette), snd (create_gazette db gazette)).
Proof.
  intros Hurl.
  destruct (create_gazette db gazette) as [created db'] eqn:Hcreate.
  cbn [fst snd]. unfold create_gazette, first_by_url in Hcreate.
  destruct (find (fun g => String.eqb (url g) (create_url gazette)) (gazettes db))
    as [g |] eqn:Hfind.
  - inversion Hcreate; subst.
    unfold create_gazette, first_by_url. rewrite Hurl, Hfind. reflexivity.
  - unfold add_commit_refresh in Hcreate. inversion Hcreate; subst.
    unfold create_gazette, first_by_url. cbn [gazettes].
    rewrite Hurl, find_after_append, Hfind. cbn [url].
    rewrite String.eqb_refl. reflexivity.
Qed.

Lemma later_create_returns_first_record_witness :
  let first := {| create_url := "https://files.example/3.pdf";
                  create_publication_date := mk_datetime 2025 8 2 0 0 0 |} in
  let later := {| create_url := "https://files.example/3.pdf";
                  create_publication_date := mk_datetime 1999 1 1 0 0 0 |} in
  publication_date (fst (create_gazette (snd (create_gazette two_rows first)) later))
  = mk_datetime 2025 8 2 0 0 0.
Proof.
  cbv zeta.
  rewrite (later_create_returns_first_record two_rows
             {| create_url := "https://files.example/3.pdf";
                create_publication_date := mk_datetime 2025 8 2 0 0 0 |}
             {| create_url := "https://files.example/3.pdf";
                create_publication_date := mk_datetime 1999 1 1 0 0 0 |} eq_refl).
  reflexivity.
Defined.

(** X13.  Creating a gazette whose url is not in the table appends exactly
    one row, which carries the submitted url and publication date; the rows
    that were there stay in place, and a lookup of the url now finds the new
    row. *)
Theorem create_with_fresh_url_appends (db : Session) (gazette : GazetteCreate) :
  (forall g, In g (gazettes db) -> url g <> create_url gazette) ->
  let created := fst (create_gazette db gazette) in
  let db' := snd (create_gazette db gazette) in
  gazettes db' = gazettes db ++ [created] /\
  url created = create_url gazette /\
  publication_date created = create_publication_date gazette /\
  first_by_url db' (create_url gazette) = Some created.
Proof.
  intros Hfresh. cbv zeta. unfold create_gazette, first_by_url.
  destruct (find (fun g => String.eqb (url g) (create_url gazette)) (gazettes db))
    as [g |] eqn:Hfind.
  - destruct (find_some _ _ Hfind) as [Hin Heq]. apply String.eqb_eq in Heq.
    exfalso. exact (Hfresh g Hin Heq).
  - unfold add_commit_refresh. cbn [fst snd gazettes url publication_date].
    repeat split. rewrite find_after_append, Hfind. cbn [url].
    now rewrite String.eqb_refl.
Qed.

Lemma create_with_fresh_url_appends_witness :
  let gazette := {| create_url := "https://files.example/3.pdf";
                    create_publication_date := mk_datetime 2025 8 2 0 0 0 |} in
  (forall g, In g (gazettes two_rows) -> url g <> create_url gazette) /\
  List.length (gazettes (snd (create_gazette two_rows gazette))) = 3%nat.
Proof.
  cbv zeta.
  assert (Hfresh : forall g, In g (gazettes two_rows) ->
                             url g <> "https://files.example/3.pdf"%string).
  { intros g [<- | [<- | []]]; discriminate. }
  split; [exact Hfresh |].
  rewrite (proj1 (create_with_fresh_url_appends two_rows
                    {| create_url := "https://files.example/3.pdf";
                       create_publication_date := mk_datetime 2025 8 2 0 0 0 |}
                    Hfresh)).
  reflexivity.
Defined.

Lemma in_firstn {A} (x : A) : forall n l, In x (firstn n l) -> In x l.
Proof.
  induction n as [| n IH]; intros [| a l] H; cbn in H; try contradiction.
  destruct H as [-> | H]; [now left | right; now apply IH].
Qed.

Lemma in_skipn {A} (x : A) : forall n l, In x (skipn n l) -> In x l.
Proof.
  induction n as [| n IH]; intros [| a l] H; cbn in H; try contradiction;
    try exact H.
  right. now apply IH.
Qed.

(** X14.  For an offset and a limit between 0 and 9223372036854775807,
    [get_gazettes] returns rows of the table, exactly as many as remain
    after the offset, up to the limit: min(limit, max(0, rows - skip)); a
    negative offset or limit is rejected by the database with [DataError]. *)
Theorem page_holds_the_rows_that_remain (db : Session) (skip limit : Z) :
  (skip < 0 \/ limit < 0 -> get_gazettes db skip limit = inl DataError) /\
  (0 <= skip <= 9223372036854775807 -> 0 <= limit <= 9223372036854775807 ->
   exists page,
     get_gazettes db skip limit = inr page /\
     Z.of_nat (List.length page)
     = Z.min limit (Z.max 0 (Z.of_nat (List.length (gazettes db)) - skip)) /\
     forall g, In g page -> In g (gazettes db)).
Proof.
  unfold get_gazettes, in_int8. split.
  - intros Hneg.
    destruct ((-9223372036854775808 <=? skip) && (skip <=? 9223372036854775807)
              && ((-9223372036854775808 <=? limit)
                  && (limit <=? 9223372036854775807)));
      [| reflexivity].
    destruct (Z.ltb_spec skip 0); [reflexivity |].
    destruct (Z.ltb_spec limit 0); [reflexivity | lia].
  - intros Hskip Hlimit.
    destruct (Z.leb_spec (-9223372036854775808) skip); [| lia].
    destruct (Z.leb_spec skip 9223372036854775807); [| lia].
    destruct (Z.leb_spec (-9223372036854775808) limit); [| lia].
    destruct (Z.leb_spec limit 9223372036854775807); [| lia].
    destruct (Z.ltb_spec skip 0); [lia |].
    destruct (Z.ltb_spec limit 0); [lia |].
    cbn [andb orb]. eexists. split; [reflexivity |]. split.
    + rewrite length_firstn, length_skipn. lia.
    + intros g Hg. now apply in_firstn, in_skipn in Hg.
Qed.

Lemma page_holds_the_rows_that_remain_witness :
  get_gazettes two_rows (-1) 10 = inl DataError /\
  exists page,
    get_gazettes two_rows 1 5 = inr page /\
    Z.of_nat (List.length page) = 1 /\
    forall g, In g page -> In g (gazettes two_rows).
Proof.
  split.
  - apply (proj1 (page_holds_the_rows_that_remain two_rows (-1) 10)). left. lia.
  - exact (proj2 (page_holds_the_rows_that_remain two_rows 1 5)
             ltac:(lia) ltac:(lia)).
Defined.

(** ** main.py: filtered queries *)

(** X15.  When a month in 1..12 and a year other than 0 that fits a 32-bit
    integer are supplied, [skip] and [limit] are ignored: the response is
    200 with all the rows of that month and year, whatever [skip] and
    [limit] are, even [limit=0] or a negative [skip]. *)
Theorem filtered_query_ignores_pagination (db : Session) (m y : Z) :
  1 <= m <= 12 -> y <> 0 -> -2147483648 <= y <= 2147483647 ->
  exists rows,
    get_gazettes_by_month_year db m y = inr rows /\
    forall skip limit : option Z,
      get_gazettes_route db
        {| q_month := Some m; q_year := Some y; q_skip := skip; q_limit := limit |}
      = {| status := 200; content := Rows rows |}.
Proof.
  intros Hm Hy Hrange.
  assert (Hquery : exists rows, get_gazettes_by_month_year db m y = inr rows).
  { unfold get_gazettes_by_month_year, in_int4.
    destruct (Z.leb_spec (-2147483648) m); [| lia].
    destruct (Z.leb_spec m 2147483647); [| lia].
    destruct (Z.leb_spec (-2147483648) y); [| lia].
    destruct (Z.leb_spec y 2147483647); [| lia].
    eexists. reflexivity. }
  destruct Hquery as [rows Hrows]. exists rows. split; [exact Hrows |].
  intros skip limit.
  unfold get_gazettes_route, month_is_valid, read_gazettes, truthy.
  cbn [q_month q_year q_skip q_limit].
  destruct (Z.leb_spec 1 m); [| lia]. destruct (Z.leb_spec m 12); [| lia].
  destruct (Z.eqb_spec m 0); [lia |].
  destruct (Z.eqb_spec y 0); [contradiction |].
  cbn [negb andb]. rewrite Hrows. reflexivity.
Qed.

Lemma filtered_query_ignores_pagination_witness :
  1 <= 7 <= 12 /\ 2025 <> 0 /\
  get_gazettes_route two_rows
    {| q_month := Some 7; q_year := Some 2025;
       q_skip := Some (-5); q_limit := Some 0 |}
  = {| status := 200; content := Rows [gazette_1] |}.
Proof.
  split; [lia |]. split; [discriminate |].
  destruct (filtered_query_ignores_pagination two_rows 7 2025
              ltac:(lia) ltac:(discriminate) ltac:(lia))
    as (rows & Hrows & Hroute).
  rewrite (Hroute (Some (-5)) (Some 0)).
  assert (Heq : rows = [gazette_1]).
  { assert (H : inr rows = inr [gazette_1] :> result (list Gazette))
      by (rewrite <- Hrows; reflexivity).
    now inversion H. }
  now rewrite Heq.
Defined.
